(** * Sequerizer: a fluent query builder in front of a Sequelize table

    A shallow embedding of [lib/Sequerizer.js] and of the error classes
    under [lib/errors/], with the properties of the builder stated and
    proved over it.

    Modelling choices, all read off the source:
    - a JavaScript value is a term of [Value]; an object is the finite map
      of its own enumerable data properties ([gmap string Value]);
    - the two objects the builder owns, [this.conditions] and
      [this.options], are followed as long as they keep the prototype
      they were created with: a write that replaces it, and a call of
      code held in a value, end the run with [Beyond], about which
      nothing is stated;
    - numbers are only stored, compared with [null] and passed on to the
      driver, never computed with: integers stand for them;
    - the wrapped Sequelize model ([this.table]) is a record of
      operations over an abstract database state; a call to it either
      throws on the spot or returns a promise that is fulfilled or
      rejected;
    - a method is a function from the world (the builder's fields and the
      database) to a completion and a new world; an [async] method
      completes with [Throw] when its promise is rejected;
    - [this.attributes] and [this.orders] are arrays, as in the
      constructor and in [clear];
    - symbols are left out: the class meets one only as the operator key
      that [whereIn] writes, and [whereIn] is not embedded;
    - [orderBy] takes its direction as a string, the runtime's
      [toUpperCase] being a parameter; [setOrders] and [needColumns]
      take arrays. *)

From stdpp Require Import gmap strings list fin_maps pretty.
From Stdlib Require Import ZArith.

Set Warnings "-register-all".
Set Default Proof Using "Type".
Open Scope Z_scope.

(** ** Values *)

Inductive Value : Type :=
  | VUndefined
  | VNull
  | VBool (b : bool)
  | VNum (n : Z)
  | VBigInt (n : Z)
  | VStr (s : string)
  | VFunction (source : string)
  | VObj (o : gmap string Value)
  | VArr (l : list Value).

(** The [typeof] operator. *)
Definition typeof (v : Value) : string :=
  match v with
  | VUndefined => "undefined"
  | VNull => "object"
  | VBool _ => "boolean"
  | VNum _ => "number"
  | VBigInt _ => "bigint"
  | VStr _ => "string"
  | VFunction _ => "function"
  | VObj _ => "object"
  | VArr _ => "object"
  end.

(** Conversion to a boolean, as done by [!] and [&&]. *)
Definition truthy (v : Value) : bool :=
  match v with
  | VUndefined | VNull => false
  | VBool b => b
  | VNum n | VBigInt n => negb (n =? 0)
  | VStr s => negb (bool_decide (s = ""))
  | VFunction _ | VObj _ | VArr _ => true
  end.

(** [v !== null] *)
Definition not_null (v : Value) : bool :=
  match v with VNull => false | _ => true end.

(** A parameter with a default value takes it when the argument is
    [undefined]. *)
Definition default_to (d v : Value) : Value :=
  match v with VUndefined => d | _ => v end.

(** [Array.isArray] *)
Definition isArray (v : Value) : bool :=
  match v with VArr _ => true | _ => false end.

(** The own enumerable properties that [Object.assign] copies from a
    source whose [typeof] is ["object"]: none for [null], the indices of
    an array, the properties of an object. *)
Definition own_properties (v : Value) : gmap string Value :=
  match v with
  | VObj o => o
  | VArr l => list_to_map (imap (fun (i : nat) x => (pretty i, x)) l)
  | _ => ∅
  end.

(** What the setter of [__proto__] takes as a prototype: an object or
    [null]; it ignores anything else. *)
Definition is_prototype (v : Value) : bool :=
  match v with
  | VNull | VFunction _ | VObj _ | VArr _ => true
  | _ => false
  end.

(** [target[key] = v] for an object that has the prototype it was
    created with. Every key but [__proto__] becomes an own property.
    [__proto__] is an own property only if the object has one already;
    otherwise the write goes to the inherited setter, which stores no
    own property: it replaces the prototype ([None]) when given an
    object or [null] and does nothing when given anything else. *)
Definition assign {V : Type} (prototype : V → bool) (key : string) (v : V)
    (target : gmap string V) : option (gmap string V) :=
  if bool_decide (key = "__proto__")
  then
    match target !! key with
    | Some _ => Some (<[key := v]> target)
    | None => if prototype v then None else Some target
    end
  else Some (<[key := v]> target).

(** [Object.assign(target, source)]: each own property of the source is
    written to the target as by [target[key] = v], so the source's
    properties come over the target's, but for [__proto__]. *)
Definition Object_assign {V : Type} (prototype : V → bool)
    (target source : gmap string V) : option (gmap string V) :=
  match source !! "__proto__" with
  | None => Some (source ∪ target)
  | Some v =>
      match assign prototype "__proto__" v target with
      | Some target' => Some (delete "__proto__" source ∪ target')
      | None => None
      end
  end.

(** ** Errors *)

Inductive ErrorClass : Type :=
  | Error_
  | TypeError
  | ReferenceError
  | ModelError
  | CreateError
  | ReadError
  | NotFoundError
  | UpdateError
  | DeleteError.

#[global] Instance ErrorClass_eq_dec : EqDecision ErrorClass.
Proof. solve_decision. Defined.

Record Exception : Type := new { class : ErrorClass; message : string }.

(** Modelled from the spec: the files of CreateError, ReadError and
    DeleteError are not among the sources; the spec has every error kind
    inherit in a single level from the common base, which is how
    [UpdateError.js] and [NotFoundError.js] extend ModelError.
    [parent c] is the class that [c] extends. *)
Definition parent (c : ErrorClass) : option ErrorClass :=
  match c with
  | Error_ => None
  | TypeError | ReferenceError | ModelError => Some Error_
  | CreateError | ReadError | NotFoundError | UpdateError | DeleteError =>
      Some ModelError
  end.

(** [e instanceof C]: [C] is on the chain of classes of [e], which is at
    most three long. *)
Definition instanceof (e : Exception) (C : ErrorClass) : bool :=
  bool_decide (class e = C)
  || bool_decide (parent (class e) = Some C)
  || bool_decide (parent (class e) ≫= parent = Some C).

(** ** Completions, promises, calls to the driver

    A method returns, throws, or takes the run [Beyond] what is
    followed here: it has replaced the prototype of [this.conditions]
    or of [this.options], or it has called a function held in a value,
    whose code is not known. Nothing is stated about a run from there
    on. *)

Inductive Completion (A : Type) : Type :=
  | Normal (a : A)
  | Throw (e : Exception)
  | Beyond.
Arguments Normal {A} a.
Arguments Throw {A} e.
Arguments Beyond {A}.

Inductive Promise (A : Type) : Type :=
  | Fulfilled (a : A)
  | Rejected (e : Exception).
Arguments Fulfilled {A} a.
Arguments Rejected {A} e.

Inductive Call (A : Type) : Type :=
  | Throws (e : Exception)
  | Returns (p : Promise A).
Arguments Throws {A} e.
Arguments Returns {A} p.

(** Conversion to a string inside a template literal. The elements of an
    array are joined with commas, [null] and [undefined] among them
    giving the empty string. *)
Fixpoint ToString (v : Value) : string :=
  match v with
  | VUndefined => "undefined"
  | VNull => "null"
  | VBool true => "true"
  | VBool false => "false"
  | VNum n | VBigInt n => pretty n
  | VStr s => s
  | VFunction src => src
  | VObj _ => "[object Object]"
  | VArr l =>
      let element x :=
        match x with VUndefined | VNull => "" | _ => ToString x end in
      (fix join (l : list Value) : string :=
         match l with
         | [] => ""
         | [x] => element x
         | x :: l' => element x +:+ "," +:+ join l'
         end) l
  end.

(** ** The wrapped table

    [this.table] is a Sequelize model. The builder uses its [name] and
    eight of its methods; the options object it hands over is read when
    the call is made. *)
Record Table (DB : Type) : Type := {
  name : string;
  table_create : Value → DB → Call Value * DB;
  bulkCreate : Value → DB → Call Value * DB;
  findAll : gmap string Value → DB → Call Value * DB;
  findByPk : Value → DB → Call Value * DB;
  findOne : gmap string Value → DB → Call Value * DB;
  findOrCreate : gmap string Value → DB → Call (Value * Value) * DB;
  table_update : Value → gmap string Value → DB → Call Value * DB;
  destroy : gmap string Value → DB → Call Value * DB;
}.
Arguments name {DB} _.
Arguments table_create {DB} _ _ _.
Arguments bulkCreate {DB} _ _ _.
Arguments findAll {DB} _ _ _.
Arguments findByPk {DB} _ _ _.
Arguments findOne {DB} _ _ _.
Arguments findOrCreate {DB} _ _ _.
Arguments table_update {DB} _ _ _ _.
Arguments destroy {DB} _ _ _.

(** ** Builder state

    A property of [this.options] holds either a value, or the very object
    that is [this.conditions] or [this.orders] ([buildOptions] stores the
    object, not a copy, so a later [where] shows through it). *)
Inductive OptionValue : Type :=
  | the_conditions
  | the_orders
  | value (v : Value).

Record Builder : Type := {
  conditions : gmap string Value;
  inspectValue : Value;
  orders : list Value;
  attributes : list Value;
  options : gmap string OptionValue;
  throwError : Value;
  limitValue : Value;
  offsetValue : Value;
}.

Definition set_conditions (c : gmap string Value) (s : Builder) : Builder :=
  {| conditions := c; inspectValue := inspectValue s; orders := orders s;
     attributes := attributes s; options := options s;
     throwError := throwError s; limitValue := limitValue s;
     offsetValue := offsetValue s |}.

Definition set_inspectValue (v : Value) (s : Builder) : Builder :=
  {| conditions := conditions s; inspectValue := v; orders := orders s;
     attributes := attributes s; options := options s;
     throwError := throwError s; limitValue := limitValue s;
     offsetValue := offsetValue s |}.

Definition set_options (o : gmap string OptionValue) (s : Builder) : Builder :=
  {| conditions := conditions s; inspectValue := inspectValue s;
     orders := orders s; attributes := attributes s; options := o;
     throwError := throwError s; limitValue := limitValue s;
     offsetValue := offsetValue s |}.

Definition set_throwError (v : Value) (s : Builder) : Builder :=
  {| conditions := conditions s; inspectValue := inspectValue s;
     orders := orders s; attributes := attributes s; options := options s;
     throwError := v; limitValue := limitValue s;
     offsetValue := offsetValue s |}.

Definition set_limitValue (v : Value) (s : Builder) : Builder :=
  {| conditions := conditions s; inspectValue := inspectValue s;
     orders := orders s; attributes := attributes s; options := options s;
     throwError := throwError s; limitValue := v;
     offsetValue := offsetValue s |}.

Definition set_offsetValue (v : Value) (s : Builder) : Builder :=
  {| conditions := conditions s; inspectValue := inspectValue s;
     orders := orders s; attributes := attributes s; options := options s;
     throwError := throwError s; limitValue := limitValue s;
     offsetValue := v |}.

(** What a property of [this.options] reads as. *)
Definition read (s : Builder) (o : OptionValue) : Value :=
  match o with
  | the_conditions => VObj (conditions s)
  | the_orders => VArr (orders s)
  | value v => v
  end.

(** The values of [this.options] that the setter of [__proto__] takes:
    the two arrays and objects of the builder, and the values that
    [is_prototype] accepts. *)
Definition option_is_prototype (o : OptionValue) : bool :=
  match o with
  | the_conditions | the_orders => true
  | value v => is_prototype v
  end.

(** [this.options] as the driver sees it. *)
Definition driver_options (s : Builder) : gmap string Value :=
  read s <$> options s.

(** When [this.conditions] is replaced by a new object, a property that
    held the old one keeps it. *)
Definition keep_conditions (s : Builder) (o : OptionValue) : OptionValue :=
  match o with
  | the_conditions => value (VObj (conditions s))
  | _ => o
  end.

(** The fields as the constructor sets them. *)
Definition fresh : Builder :=
  {| conditions := ∅; inspectValue := VNull; orders := [];
     attributes := []; options := ∅; throwError := VBool false;
     limitValue := VNull; offsetValue := VNull |}.

(** The empty form of the query state: every field but [inspectValue]. *)
Definition is_reset (s : Builder) : Prop :=
  conditions s = ∅ ∧ attributes s = [] ∧ orders s = [] ∧ options s = ∅
  ∧ limitValue s = VNull ∧ offsetValue s = VNull
  ∧ throwError s = VBool false.

(** Two builders with the same query state. *)
Definition same_query (s s' : Builder) : Prop :=
  conditions s' = conditions s ∧ attributes s' = attributes s
  ∧ orders s' = orders s ∧ options s' = options s
  ∧ limitValue s' = limitValue s ∧ offsetValue s' = offsetValue s
  ∧ throwError s' = throwError s.

(** ** Methods as world transformers *)

Record World (DB : Type) : Type := { this : Builder; db : DB }.
Arguments this {DB} _.
Arguments db {DB} _.

Definition M (DB A : Type) : Type := World DB → Completion A * World DB.

(** A method that ends in [return this] yields [This]. *)
Inductive Self : Type := This.

Section Monad.
Context {DB : Type}.

Definition ret {A} (a : A) : M DB A := fun w => (Normal a, w).

Definition throw {A} (e : Exception) : M DB A := fun w => (Throw e, w).

Definition beyond {A} : M DB A := fun w => (Beyond, w).

Definition bind {A B} (m : M DB A) (k : A → M DB B) : M DB B :=
  fun w =>
    match m w with
    | (Normal a, w') => k a w'
    | (Throw e, w') => (Throw e, w')
    | (Beyond, w') => (Beyond, w')
    end.

(** [try { body } catch (error) { handler }] *)
Definition try_catch {A} (body : M DB A) (handler : Exception → M DB A)
  : M DB A :=
  fun w =>
    match body w with
    | (Normal a, w') => (Normal a, w')
    | (Throw e, w') => handler e w'
    | (Beyond, w') => (Beyond, w')
    end.

Definition gets {A} (f : Builder → A) : M DB A :=
  fun w => (Normal (f (this w)), w).

Definition modify (f : Builder → Builder) : M DB unit :=
  fun w => (Normal tt, {| this := f (this w); db := db w |}).

Definition when (b : bool) (m : M DB unit) : M DB unit :=
  if b then m else ret tt.

(** [await table.method(...)]: a call that throws and a promise that is
    rejected both throw at this point. *)
Definition await {A} (call : DB → Call A * DB) : M DB A :=
  fun w =>
    let '(r, d) := call (db w) in
    (match r with
     | Throws e | Returns (Rejected e) => Throw e
     | Returns (Fulfilled a) => Normal a
     end, {| this := this w; db := d |}).

(** [table.method(...)] without [await]: only a call that throws does
    so here; the promise is a value like any other. *)
Definition no_await {A} (call : DB → Call A * DB) : M DB (Promise A) :=
  fun w =>
    let '(r, d) := call (db w) in
    (match r with
     | Throws e => Throw e
     | Returns p => Normal p
     end, {| this := this w; db := d |}).

(** An [async] function that returns a promise settles as that promise
    does, after its body (and any [try] in it) is left. *)
Definition adopt {A} (m : M DB (Promise A)) : M DB A :=
  bind m (fun p =>
    match p with
    | Fulfilled a => ret a
    | Rejected e => throw e
    end).

(** An identifier that no enclosing scope binds. *)
Definition unbound (x : string) : M DB string :=
  throw (new ReferenceError (x +:+ " is not defined")).

(** Calling a class without [new]. *)
Definition call_class {A} (c : string) (msg : string) : M DB A :=
  throw (new TypeError
    ("Class constructor " +:+ c +:+ " cannot be invoked without 'new'")).
End Monad.

Notation "x <- m ;; k" := (bind m (fun x => k))
  (at level 90, m at level 89, k at level 90, right associativity).
Notation "m ;;; k" := (bind m (fun _ => k))
  (at level 90, k at level 90, right associativity).

(** ** The class *)

Section Sequerizer.
Context {DB : Type}.
(** [this.table], and the runtime's [JSON.stringify], whose output
    follows the insertion order of properties. *)
Variable table : Table DB.
Variable JSON_stringify : Value → Completion string.

(** [this.identifier = table.name] *)
Definition identifier : string := name table.

(** [new Sequerizer(table)] *)
Definition constructor (t : option (Table DB)) : Completion Builder :=
  match t with
  | None =>
      Throw (new ModelError
        "Sequelize model table must be define in constructor")
  | Some _ => Normal fresh
  end.

(** *** Validator utility *)

Definition inspect (data : Value) : M DB Self :=
  modify (set_inspectValue data) ;;; ret This.

Definition knownTypes : list string :=
  ["undefined"; "object"; "boolean"; "number"; "bigint"; "string";
   "symbol"; "function"].

Definition mustBeAn (type messageIfError : string) : M DB unit :=
  if negb (bool_decide (type ∈ knownTypes))
  then throw (new Error_ "Unknown type")
  else
    v <- gets inspectValue ;;
    if negb (bool_decide (typeof v = type))
    then throw (new TypeError messageIfError)
    else ret tt.

(** *** Clearing utilities *)

Definition resetConditions : M DB unit :=
  modify (fun s =>
    set_conditions ∅ (set_options (keep_conditions s <$> options s) s)).

Definition resetOptions : M DB unit := modify (set_options ∅).

Definition resetThrowError : M DB unit :=
  modify (set_throwError (VBool false)).

Definition cleared (s : Builder) : Builder :=
  {| conditions := ∅; inspectValue := inspectValue s; orders := [];
     attributes := []; options := ∅; throwError := VBool false;
     limitValue := VNull; offsetValue := VNull |}.

Definition clear : M DB unit := modify cleared.

(** *** Middleware utilities

    The callback is given the builder: it is a method itself. For
    [verify] its completion is that of [await callback(this)]. *)

Definition verifySync (callback : M DB Value) : M DB Self :=
  verified <- callback ;;
  inspect verified ;;;
  mustBeAn "boolean" "verifySync callback must return boolean value" ;;;
  if negb (truthy verified)
  then throw (new ModelError "Unverified state occured")
  else ret This.

Definition verify (callback : M DB Value) : M DB Self :=
  verified <- callback ;;
  inspect verified ;;;
  mustBeAn "boolean" "verify callback must return boolean value" ;;;
  if negb (truthy verified)
  then throw (new ModelError "Unverified state occured")
  else ret This.

(** *** Options builder utilities *)

(** [this.conditions] after a write to it, or the end of what is
    followed when the write replaced its prototype. *)
Definition write_conditions (written : option (gmap string Value))
  : M DB unit :=
  match written with
  | Some c => modify (set_conditions c)
  | None => beyond
  end.

Definition where_ (columnOrConditions v : Value) : M DB Self :=
  (match columnOrConditions with
   | VStr column =>
       written <- gets (fun s => assign is_prototype column v (conditions s)) ;;
       write_conditions written
   | _ =>
       if bool_decide (typeof columnOrConditions = "object")
       then
         written <- gets (fun s =>
           Object_assign is_prototype (conditions s)
             (own_properties columnOrConditions)) ;;
         write_conditions written
       else ret tt
   end) ;;;
  ret This.

Definition limit (n : Value) : M DB Self :=
  inspect n ;;;
  mustBeAn "number" "limit in limit method must be a number" ;;;
  modify (set_limitValue n) ;;;
  ret This.

Definition offset (n : Value) : M DB Self :=
  inspect n ;;;
  mustBeAn "number" "Offset must be a number" ;;;
  modify (set_offsetValue n) ;;;
  ret This.

(** [this.options.hasOwnProperty(key)]. The method is looked up on
    [this.options] first: an own property of that name, put there by
    [option], is what gets called, and calling what is no function is a
    TypeError. Without one, the method of [Object.prototype] answers
    whether [key] is an own property. *)
Definition hasOwnProperty (key : string) : M DB bool :=
  fun w =>
    match options (this w) !! "hasOwnProperty" with
    | None => (Normal (bool_decide (is_Some (options (this w) !! key))), w)
    | Some own =>
        (if bool_decide (typeof (read (this w) own) = "function")
         then Beyond
         else Throw (new TypeError
                "this.options.hasOwnProperty is not a function"),
         w)
    end.

(** [this.options[key] = v], for the keys that [buildOptions] and the
    terminal operations write, none of which is [__proto__]. *)
Definition set_option (key : string) (v : OptionValue) : M DB unit :=
  modify (fun s => set_options (<[key := v]> (options s)) s).

Definition buildOptions : M DB unit :=
  (has <- hasOwnProperty "where" ;;
   when (negb has) (set_option "where" the_conditions)) ;;;
  (projection <- gets attributes ;;
   if (0 <? length projection)%nat
   then
     has <- hasOwnProperty "attributes" ;;
     when (negb has) (set_option "attributes" (value (VArr projection)))
   else ret tt) ;;;
  (order <- gets orders ;;
   if (0 <? length order)%nat
   then
     has <- hasOwnProperty "order" ;;
     when (negb has) (set_option "order" the_orders)
   else ret tt) ;;;
  (limit_value <- gets limitValue ;;
   if not_null limit_value
   then
     has <- hasOwnProperty "limit" ;;
     when (negb has) (set_option "limit" (value limit_value))
   else ret tt) ;;;
  (offset_value <- gets offsetValue ;;
   if not_null offset_value
   then
     has <- hasOwnProperty "offset" ;;
     when (negb has) (set_option "offset" (value offset_value))
   else ret tt).

(** [this.options] after a write to it, or the end of what is followed
    when the write replaced its prototype. *)
Definition write_options (written : option (gmap string OptionValue))
  : M DB unit :=
  match written with
  | Some o => modify (set_options o)
  | None => beyond
  end.

Definition option_ (keyOrOptions v : Value) : M DB Self :=
  (match keyOrOptions with
   | VStr key =>
       written <- gets (fun s =>
         assign option_is_prototype key (value v) (options s)) ;;
       write_options written
   | _ =>
       if bool_decide (typeof keyOrOptions = "object")
       then
         written <- gets (fun s =>
           Object_assign option_is_prototype (options s)
             (value <$> own_properties keyOrOptions)) ;;
         write_options written
       else ret tt
   end) ;;;
  ret This.

Definition withError (v : Value) : M DB Self :=
  modify (set_throwError (default_to (VBool true) v)) ;;;
  ret This.

(** [this.options.where = v] *)
Definition set_where (v : Value) : M DB unit := set_option "where" (value v).

(** [this.options.attributes = columns] *)
Definition set_attributes (columns : list Value) : M DB unit :=
  set_option "attributes" (value (VArr columns)).

(** *** CRUD

    [insert], [delete], [exists], [where] and [option] of the source
    carry a trailing underscore here: the bare names are keywords, or
    belong to the map library and to the standard types. *)

Definition create (data : Value) : M DB Value :=
  inspect data ;;;
  mustBeAn "object" "Inserted data must have type of object" ;;;
  try_catch
    (newItem <- await (table_create table data) ;;
     ret newItem)
    (fun error =>
       throw (new CreateError
         ("Error creating " +:+ identifier +:+ ": " +:+ message error))).

Definition insert_ (data : Value) : M DB Value :=
  inspect data ;;;
  mustBeAn "object" "Inserted data must be an object or array of objects" ;;;
  try_catch
    (newItem <- (if isArray data
                 then await (bulkCreate table data)
                 else await (table_create table data)) ;;
     ret newItem)
    (fun error =>
       throw (new CreateError
         ("Error inserting into " +:+ identifier +:+ ": "
          +:+ message error))).

Definition get (columns : list Value) (conditions_arg : Value)
  : M DB Value :=
  let given := default_to VNull conditions_arg in
  inspect (VArr columns) ;;;
  mustBeAn "object" "columns in whereIn method must be an array" ;;;
  try_catch
    (buildOptions ;;;
     when (bool_decide (typeof given = "object") && not_null given)
       (set_where given) ;;;
     when (0 <? length columns)%nat (set_attributes columns) ;;;
     opts <- gets driver_options ;;
     items <- await (findAll table opts) ;;
     clear ;;;
     ret items)
    (fun error =>
       throw (new ReadError ("Fail fetching data: " +:+ message error))).

Definition getOrCreate (data : Value) : M DB Value :=
  inspect data ;;;
  mustBeAn "object" "Inserted data must have type of object" ;;;
  try_catch
    (found <- await (findOrCreate table {["where" := data]}) ;;
     let '(item, created) := found in
     flag <- gets throwError ;;
     when (negb (truthy created) && truthy flag)
       (json <- (fun w => (JSON_stringify data, w)) ;;
        throw (new CreateError
          (identifier +:+ " already exists with data " +:+ json))) ;;;
     resetThrowError ;;;
     ret item)
    (fun error =>
       if instanceof error CreateError
       then throw error
       else throw (new ModelError
              ("Error creating or finding " +:+ identifier +:+ ": "
               +:+ message error))).

Definition getWhere (conditions_arg : Value) : M DB Value :=
  let given := default_to VNull conditions_arg in
  try_catch
    (s <- gets (fun s => s) ;;
     let withOptions : gmap string Value :=
       {["where" := if not_null given then given
                    else VObj (conditions s)]} in
     let withOptions :=
       if (0 <? length (attributes s))%nat
       then <["attributes" := VArr (attributes s)]> withOptions
       else withOptions in
     items <- await (findAll table withOptions) ;;
     clear ;;;
     ret items)
    (fun error =>
       throw (new ReadError ("Fail fetching data: " +:+ message error))).

Definition find (id : Value) : M DB Value :=
  try_catch
    (item <- await (findByPk table id) ;;
     flag <- gets throwError ;;
     when (negb (truthy item) && truthy flag)
       (throw (new NotFoundError
          (identifier +:+ " not found with id " +:+ ToString id))) ;;;
     resetThrowError ;;;
     ret item)
    (fun error =>
       if instanceof error NotFoundError
       then throw error
       else
         throw (new ReadError
           ("Error finding " +:+ identifier +:+ " with id " +:+ ToString id
            +:+ ": " +:+ message error))).

Definition first : M DB Value :=
  try_catch
    (buildOptions ;;;
     opts <- gets driver_options ;;
     item <- await (findOne table opts) ;;
     flag <- gets throwError ;;
     when (negb (truthy item) && truthy flag)
       (throw (new NotFoundError (identifier +:+ " not found"))) ;;;
     clear ;;;
     ret item)
    (fun error =>
       if instanceof error NotFoundError
       then throw error
       else
         shown <- unbound "id" ;;
         throw (new ReadError
           ("Error finding " +:+ identifier +:+ " with id " +:+ shown
            +:+ ": " +:+ message error))).

Definition exists_ (conditions_arg : Value) : M DB Value :=
  let given := default_to VNull conditions_arg in
  inspect given ;;;
  mustBeAn "object" "conditions in exists method must be an object" ;;;
  try_catch
    (buildOptions ;;;
     when (not_null given) (set_where given) ;;;
     opts <- gets driver_options ;;
     item <- await (findOne table opts) ;;
     clear ;;;
     ret (VBool (not_null item)))
    (fun error =>
       throw (new ReadError
         ("Error in exists method: " +:+ message error))).

Definition update (payload conditions_arg : Value) : M DB Value :=
  let given := default_to VNull conditions_arg in
  buildOptions ;;;
  when (not_null given && bool_decide (typeof given = "object"))
    (set_where given) ;;;
  adopt
    (try_catch
       (opts <- gets driver_options ;;
        items <- no_await (table_update table payload opts) ;;
        clear ;;;
        ret items)
       (fun error =>
          call_class "UpdateError"
            ("Error updating " +:+ identifier +:+ " table: "
             +:+ message error))).

Definition delete_ (conditions_arg : Value) : M DB Value :=
  let given := default_to VNull conditions_arg in
  buildOptions ;;;
  when (not_null given && bool_decide (typeof given = "object"))
    (set_where given) ;;;
  try_catch
    (opts <- gets driver_options ;;
     result <- await (destroy table opts) ;;
     clear ;;;
     ret result)
    (fun error =>
       throw (new DeleteError
         ("Error deleting from " +:+ identifier +:+ ": "
          +:+ message error))).

Definition truncate : M DB Value :=
  try_catch
    (await (destroy table
        (<["truncate" := VBool true]> {["where" := VObj ∅]})) ;;;
     ret VUndefined)
    (fun error =>
       throw (new DeleteError
         ("Error truncating " +:+ identifier +:+ ": " +:+ message error))).
End Sequerizer.

(** ** The members of an instance

    The fields that the constructor sets and the arrow functions that
    the class body declares, in the order of the source: these, and
    what [Object.prototype] gives every object, are all that a builder
    has. *)
Definition fields : list string :=
  ["table"; "identifier"; "conditions"; "inspectValue"; "orders";
   "attributes"; "options"; "throwError"; "limitValue"; "offsetValue"].

Definition methods : list string :=
  ["inspect"; "mustBeAn"; "resetConditions"; "resetOptions";
   "resetThrowError"; "clear"; "verifySync"; "verify"; "where"; "whereIn";
   "orderBy"; "setOrders"; "needColumns"; "limit"; "offset";
   "buildOptions"; "option"; "withError"; "create"; "insert"; "get";
   "getOrCreate"; "getWhere"; "find"; "first"; "exists"; "update";
   "delete"; "truncate"].

Definition Object_prototype : list string :=
  ["constructor"; "hasOwnProperty"; "isPrototypeOf";
   "propertyIsEnumerable"; "toLocaleString"; "toString"; "valueOf";
   "__defineGetter__"; "__defineSetter__"; "__lookupGetter__";
   "__lookupSetter__"; "__proto__"].

(** [builder.member(...)] for a builder bound to the name [builder],
    when the builder has no such member: the member reads as
    [undefined], and calling it is a TypeError. [None] when the member
    is there. *)
Definition call_missing (builder member : string) : option Exception :=
  if bool_decide (member ∈ fields ++ methods ++ Object_prototype)
  then None
  else Some (new TypeError (builder +:+ "." +:+ member
                            +:+ " is not a function")).

(** ** An in-memory table

    A small stand-in for a Sequelize model, on which the methods can be
    run: the database is the list of rows, a [where] object selects the
    rows that have each of its properties with a strictly equal value. *)

Definition strict_eq (a b : Value) : bool :=
  match a, b with
  | VUndefined, VUndefined | VNull, VNull => true
  | VBool x, VBool y => bool_decide (x = y)
  | VNum x, VNum y | VBigInt x, VBigInt y => x =? y
  | VStr x, VStr y => bool_decide (x = y)
  | _, _ => false
  end.

Definition has_property (row : Value) (kv : string * Value) : bool :=
  match row with
  | VObj r =>
      match r !! kv.1 with
      | Some x => strict_eq x kv.2
      | None => false
      end
  | _ => false
  end.

Definition row_matches (conds row : Value) : bool :=
  match conds with
  | VObj c => forallb (has_property row) (map_to_list c)
  | _ => true
  end.

Definition selected (opts : gmap string Value) (rows : list Value)
  : list Value :=
  match opts !! "where" with
  | Some c => List.filter (row_matches c) rows
  | None => rows
  end.

Definition memory_table (table_name : string) : Table (list Value) :=
  {| name := table_name;
     table_create data rows := (Returns (Fulfilled data), rows ++ [data]);
     bulkCreate data rows :=
       match data with
       | VArr l => (Returns (Fulfilled data), rows ++ l)
       | _ => (Returns (Rejected (new Error_ "bulkCreate needs an array")), rows)
       end;
     findAll opts rows := (Returns (Fulfilled (VArr (selected opts rows))), rows);
     findByPk key rows :=
       (Returns (Fulfilled
          (default VNull (head (List.filter (fun r => has_property r ("id", key)) rows)))),
        rows);
     findOne opts rows :=
       (Returns (Fulfilled (default VNull (head (selected opts rows)))), rows);
     findOrCreate opts rows :=
       match selected opts rows with
       | r :: _ => (Returns (Fulfilled (r, VBool false)), rows)
       | [] =>
           let data := default VNull (opts !! "where") in
           (Returns (Fulfilled (data, VBool true)), rows ++ [data])
       end;
     table_update payload opts rows :=
       let hit r := row_matches (default VNull (opts !! "where")) r in
       (Returns (Fulfilled
          (VArr [VNum (Z.of_nat (length (List.filter hit rows)))])),
        (fun r => if hit r
                  then VObj (own_properties payload ∪ own_properties r)
                  else r) <$> rows);
     destroy opts rows :=
       let hit r := row_matches (default VNull (opts !! "where")) r in
       (Returns (Fulfilled (VNum (Z.of_nat (length (List.filter hit rows))))),
        if truthy (default VUndefined (opts !! "truncate")) then []
        else List.filter (fun r => negb (hit r)) rows) |}.

(** A table on which every call fails the same way. *)
Definition failing_table (table_name : string) (failure : ∀ A, Call A)
  : Table unit :=
  {| name := table_name;
     table_create _ d := (failure _, d);
     bulkCreate _ d := (failure _, d);
     findAll _ d := (failure _, d);
     findByPk _ d := (failure _, d);
     findOne _ d := (failure _, d);
     findOrCreate _ d := (failure _, d);
     table_update _ _ d := (failure _, d);
     destroy _ d := (failure _, d) |}.

Definition rejecting (e : Exception) : ∀ A, Call A :=
  fun _ => Returns (Rejected e).

Definition throwing (e : Exception) : ∀ A, Call A :=
  fun _ => Throws e.

(** [JSON.stringify] for the examples: rows there are flat objects, shown
    as their list of keys. *)
Definition show_keys (v : Value) : Completion string :=
  Normal ("{" +:+ String.concat "," (map_to_list (own_properties v)).*1 +:+ "}").

(** A user row of the test suite. *)
Definition user (key : Z) (user_name phone : string) : Value :=
  VObj (<["id" := VNum key]> (<["name" := VStr user_name]>
          (<["phone" := VStr phone]> ∅))).

Definition users : list Value :=
  [user 1 "User 1" "1234567890"; user 2 "User 2" "1234567891"].

Definition Users : World (list Value) := {| this := fresh; db := users |}.

(** ** Terminal operations, as one type *)

Inductive Terminal : Type :=
  | call_create (data : Value)
  | call_insert (data : Value)
  | call_get (columns : list Value) (conds : Value)
  | call_getWhere (conds : Value)
  | call_find (key : Value)
  | call_first
  | call_exists (conds : Value)
  | call_getOrCreate (data : Value)
  | call_update (payload conds : Value)
  | call_delete (conds : Value)
  | call_truncate.

Definition run {DB : Type} (table : Table DB)
    (JSON_stringify : Value → Completion string) (op : Terminal)
  : M DB Value :=
  match op with
  | call_create data => create table data
  | call_insert data => insert_ table data
  | call_get columns conds => get table columns conds
  | call_getWhere conds => getWhere table conds
  | call_find key => find table key
  | call_first => first table
  | call_exists conds => exists_ table conds
  | call_getOrCreate data => getOrCreate table JSON_stringify data
  | call_update payload conds => update table payload conds
  | call_delete conds => delete_ table conds
  | call_truncate => truncate table
  end.

(** The options that [buildOptions] derives from the builder's fields,
    in the spec's words: the accumulated conditions as [where], the
    projection if non-empty, the order list if non-empty, limit and
    offset if non-null. *)
Definition derived_options (s : Builder) : gmap string OptionValue :=
  {["where" := the_conditions]}
  ∪ (if (0 <? length (attributes s))%nat
     then {["attributes" := value (VArr (attributes s))]} else ∅)
  ∪ (if (0 <? length (orders s))%nat
     then {["order" := the_orders]} else ∅)
  ∪ (if not_null (limitValue s)
     then {["limit" := value (limitValue s)]} else ∅)
  ∪ (if not_null (offsetValue s)
     then {["offset" := value (offsetValue s)]} else ∅).

(** What the terminal operations are said to leave behind, by kind:
    those that end in [clear], those that end in [resetThrowError], and
    those that touch no query field. *)
Definition leaves (op : Terminal) (before after : Builder) : Prop :=
  match op with
  | call_get _ _ | call_getWhere _ | call_first | call_exists _
  | call_update _ _ | call_delete _ => is_reset after
  | call_find _ | call_getOrCreate _ =>
      same_query (set_throwError (VBool false) before) after
  | call_create _ | call_insert _ | call_truncate => same_query before after
  end.

(** ** Data for the examples *)

(** The world of a table that answers nothing. *)
Definition Offline : World unit := {| this := fresh; db := tt |}.

(** The users, on a builder whose overlay has a [hasOwnProperty] of its
    own, as [option("hasOwnProperty", true)] leaves it. *)
Definition Shadowed : World (list Value) :=
  {| this := set_options {["hasOwnProperty" := value (VBool true)]} fresh;
     db := users |}.

(** A failure of the driver. *)
Definition refused : Exception := new Error_ "connect ECONNREFUSED".

(** The predicate of the test suite: no row has this phone number. *)
Definition phone_is_free {DB : Type} (table : Table DB) (phone : string)
  : M DB Value :=
  where_ (VStr "phone") (VStr phone) ;;;
  found <- exists_ table VUndefined ;;
  ret (VBool (negb (truthy found))).

(** ** Ordering and projection *)

Definition put_orders (l : list Value) (s : Builder) : Builder :=
  {| conditions := conditions s; inspectValue := inspectValue s;
     orders := l; attributes := attributes s; options := options s;
     throwError := throwError s; limitValue := limitValue s;
     offsetValue := offsetValue s |}.

Definition put_attributes (l : list Value) (s : Builder) : Builder :=
  {| conditions := conditions s; inspectValue := inspectValue s;
     orders := orders s; attributes := l; options := options s;
     throwError := throwError s; limitValue := limitValue s;
     offsetValue := offsetValue s |}.

(** When [this.orders] is replaced by another array, a property that
    held the old one keeps it. *)
Definition keep_orders (s : Builder) (o : OptionValue) : OptionValue :=
  match o with
  | the_orders => value (VArr (orders s))
  | _ => o
  end.

Section Ordering.
Context {DB : Type}.
(** [String.prototype.toUpperCase], which follows the Unicode case
    mapping. *)
Variable toUpperCase : string → string.

(** [orderBy(column, direction = "ASC")]; [None] is the argument left
    out. [push] changes [this.orders] in place. *)
Definition orderBy (column : Value) (direction_arg : option string)
  : M DB Self :=
  let direction := default "ASC" direction_arg in
  if negb (bool_decide (toUpperCase direction ∈ ["ASC"; "DESC"]))
  then throw (new ModelError "Order available: ASC or DESC")
  else
    modify (fun s =>
      put_orders
        (orders s ++ [VArr [column; VStr (toUpperCase direction)]]) s) ;;;
    ret This.
End Ordering.

Definition setOrders {DB : Type} (new_orders : list Value) : M DB Self :=
  modify (fun s =>
    put_orders new_orders (set_options (keep_orders s <$> options s) s)) ;;;
  ret This.

Definition needColumns {DB : Type} (columns : list Value) : M DB Self :=
  inspect (VArr columns) ;;;
  mustBeAn "object" "columns in needColumns method must be an array" ;;;
  modify (put_attributes columns) ;;;
  ret This.

(** Upper case of the letters [a] to [z], which is what [toUpperCase]
    does on a string of ASCII characters. *)
Definition upper_ascii (c : Ascii.ascii) : Ascii.ascii :=
  let n := Ascii.nat_of_ascii c in
  if ((97 <=? n) && (n <=? 122))%nat then Ascii.ascii_of_nat (n - 32)
  else c.

Fixpoint to_upper (s : string) : string :=
  match s with
  | EmptyString => EmptyString
  | String c rest => String (upper_ascii c) (to_upper rest)
  end.

(** ** Names for what the methods pass and leave *)

(** The builder after [buildOptions]. *)
Definition built (s : Builder) : Builder :=
  set_options (options s ∪ derived_options s) s.

(** The options that [exists], [update] and [delete] give the driver,
    and [get] before it looks at its columns: the built ones, with
    [where] replaced by conditions that are an object and not [null]. *)
Definition conditioned_options (conditions_arg : Value) (s : Builder)
  : gmap string Value :=
  let given := default_to VNull conditions_arg in
  if bool_decide (typeof given = "object") && not_null given
  then <["where" := given]> (driver_options (built s))
  else driver_options (built s).

(** The options that [get] gives the driver. *)
Definition get_options (columns : list Value) (conditions_arg : Value)
    (s : Builder) : gmap string Value :=
  if (0 <? length columns)%nat
  then <["attributes" := VArr columns]> (conditioned_options conditions_arg s)
  else conditioned_options conditions_arg s.

(** The options that [getWhere] gives the driver. *)
Definition getWhere_options (conditions_arg : Value) (s : Builder)
  : gmap string Value :=
  let given := default_to VNull conditions_arg in
  let chosen := if not_null given then given else VObj (conditions s) in
  if (0 <? length (attributes s))%nat
  then <["attributes" := VArr (attributes s)]> {["where" := chosen]}
  else {["where" := chosen]}.

(** The options that [truncate] gives the driver. *)
Definition truncate_options : gmap string Value :=
  <["truncate" := VBool true]> {["where" := VObj ∅]}.

(** The call that [insert] makes. *)
Definition insert_call {DB : Type} (table : Table DB) (data : Value)
  : DB → Call Value * DB :=
  if isArray data then bulkCreate table data else table_create table data.

(** The error of a call that fails, by throwing or by rejecting. *)
Definition failure {A : Type} (outcome : Call A) : option Exception :=
  match outcome with
  | Throws e | Returns (Rejected e) => Some e
  | Returns (Fulfilled _) => None
  end.

(** * Properties *)

Example users_find_1 :
  find (memory_table "users") (VNum 1) Users
  = (Normal (user 1 "User 1" "1234567890"), Users).
Proof. vm_compute. reflexivity. Qed.

Example users_where_get :
  (where_ (VStr "name") (VStr "User 2") ;;; get (memory_table "users") [] VUndefined) Users
  = (Normal (VArr [user 2 "User 2" "1234567891"]),
     {| this := set_inspectValue (VArr []) fresh; db := users |}).
Proof. vm_compute. reflexivity. Qed.

(** A [get] that fails leaves [this.options.where] holding the
    conditions object, so a condition added afterwards reaches the
    driver on the next call. *)
Example where_shows_through_options :
  (buildOptions ;;; where_ (VStr "name") (VStr "User 2") ;;;
   gets driver_options) Users
  = (Normal {["where" := VObj {["name" := VStr "User 2"]}]},
     {| this :=
          set_options {["where" := the_conditions]}
            (set_conditions {["name" := VStr "User 2"]} fresh);
        db := users |}).
Proof. vm_compute. reflexivity. Qed.

(** ** Running the monad *)

Ltac run_monad :=
  unfold adopt, unbound, call_class, when in *;
  unfold bind, ret, throw, try_catch, gets, modify, await, no_await in *;
  simpl in *.

Section Running.
Context {DB : Type}.
Implicit Types w : World DB.

Lemma bind_normal {A B} (m : M DB A) (k : A → M DB B) w a w' :
  m w = (Normal a, w') → (x <- m ;; k x) w = k a w'.
Proof. intros H. unfold bind. by rewrite H. Qed.

Lemma bind_throw {A B} (m : M DB A) (k : A → M DB B) w e w' :
  m w = (Throw e, w') → (x <- m ;; k x) w = (Throw e, w').
Proof. intros H. unfold bind. by rewrite H. Qed.

Lemma try_normal {A} (m : M DB A) h w a w' :
  m w = (Normal a, w') → try_catch m h w = (Normal a, w').
Proof. intros H. unfold try_catch. by rewrite H. Qed.

Lemma try_throw {A} (m : M DB A) h w e w' :
  m w = (Throw e, w') → try_catch m h w = h e w'.
Proof. intros H. unfold try_catch. by rewrite H. Qed.

Lemma inspect_run v w :
  inspect v w
  = (Normal This, {| this := set_inspectValue v (this w); db := db w |}).
Proof. reflexivity. Qed.

Lemma mustBeAn_run type msg w :
  type ∈ knownTypes →
  mustBeAn type msg w
  = (if bool_decide (typeof (inspectValue (this w)) = type)
     then Normal tt else Throw (new TypeError msg), w).
Proof.
  intros Hin. unfold mustBeAn.
  rewrite (bool_decide_eq_true_2 _ Hin). run_monad.
  by destruct (bool_decide _).
Qed.

Lemma known_object : "object" ∈ knownTypes.
Proof. unfold knownTypes. set_solver. Qed.

Lemma known_boolean : "boolean" ∈ knownTypes.
Proof. unfold knownTypes. set_solver. Qed.

Lemma insert_absent_union key v (o : gmap string OptionValue) :
  (if bool_decide (is_Some (o !! key)) then o else <[key := v]> o)
  = o ∪ {[key := v]}.
Proof.
  apply map_eq. intros k. destruct (o !! key) as [x|] eqn:E.
  - rewrite bool_decide_eq_true_2 by eauto. rewrite lookup_union.
    destruct (decide (k = key)) as [->|Hne].
    + by rewrite E, lookup_singleton_eq.
    + rewrite lookup_singleton_ne by done. by destruct (o !! k).
  - rewrite bool_decide_eq_false_2 by (intros [? ?]; congruence).
    rewrite lookup_union.
    destruct (decide (k = key)) as [->|Hne].
    + by rewrite E, lookup_insert_eq, lookup_singleton_eq.
    + rewrite lookup_insert_ne, lookup_singleton_ne by done.
      by destruct (o !! k).
Qed.

(** One test of [buildOptions] with its write, when the method of
    [Object.prototype] is the one that answers. *)
Lemma add_option_run key v w :
  options (this w) !! "hasOwnProperty" = None →
  (has <- hasOwnProperty key ;; when (negb has) (set_option key v)) w
  = (Normal tt,
     {| this := set_options (options (this w) ∪ {[key := v]}) (this w);
        db := db w |}).
Proof.
  intros Hown. unfold bind, hasOwnProperty. rewrite Hown.
  rewrite <- insert_absent_union.
  destruct (bool_decide (is_Some (options (this w) !! key))); simpl.
  - destruct w as [s d]. by destruct s.
  - reflexivity.
Qed.

(** What [buildOptions] does to the world when [this.options] has no
    own property [hasOwnProperty]: it completes, and only
    [this.options] changes. *)
Lemma maybe_add_option_run (b : bool) key v w :
  options (this w) !! "hasOwnProperty" = None →
  (if b then (has <- hasOwnProperty key ;; when (negb has) (set_option key v))
   else ret tt) w
  = (Normal tt,
     {| this := set_options
                  (options (this w) ∪ (if b then {[key := v]} else ∅))
                  (this w);
        db := db w |}).
Proof.
  intros Hown. destruct b; [by apply add_option_run|].
  rewrite (right_id_L ∅ (∪)). destruct w as [s d]. by destruct s.
Qed.

Ltac no_own_method :=
  simpl; repeat apply lookup_union_None_2; try done;
  repeat case_match; by rewrite ?lookup_empty, ?lookup_singleton_ne.

Lemma buildOptions_run w :
  options (this w) !! "hasOwnProperty" = None →
  buildOptions w = (Normal tt, {| this := built (this w); db := db w |}).
Proof.
  intros Hown. unfold buildOptions, built, derived_options.
  erewrite bind_normal by (by apply add_option_run).
  erewrite bind_normal.
  2:{ unfold bind at 1, gets at 1. cbv beta iota.
      apply maybe_add_option_run. no_own_method. }
  erewrite bind_normal.
  2:{ unfold bind at 1, gets at 1. cbv beta iota.
      apply maybe_add_option_run. no_own_method. }
  erewrite bind_normal.
  2:{ unfold bind at 1, gets at 1. cbv beta iota.
      apply maybe_add_option_run. no_own_method. }
  unfold bind at 1, gets at 1. cbv beta iota.
  rewrite maybe_add_option_run by no_own_method.
  simpl. unfold set_options; simpl.
  do 3 f_equal. by rewrite <- !(assoc_L (∪)).
Qed.

(** What it does when [this.options] has such a property: the first
    test calls it, and nothing is written. *)
Lemma buildOptions_shadowed w own :
  options (this w) !! "hasOwnProperty" = Some own →
  buildOptions w
  = (if bool_decide (typeof (read (this w) own) = "function")
     then Beyond
     else Throw (new TypeError
            "this.options.hasOwnProperty is not a function"),
     w).
Proof.
  intros Hown. unfold buildOptions, bind, hasOwnProperty. rewrite Hown.
  by destruct (bool_decide _).
Qed.

Lemma buildOptions_cases w :
  buildOptions w
  = match options (this w) !! "hasOwnProperty" with
    | None => (Normal tt, {| this := built (this w); db := db w |})
    | Some own =>
        (if bool_decide (typeof (read (this w) own) = "function")
         then Beyond
         else Throw (new TypeError
                "this.options.hasOwnProperty is not a function"),
         w)
    end.
Proof.
  destruct (options (this w) !! "hasOwnProperty") eqn:Hown.
  - by apply buildOptions_shadowed.
  - by apply buildOptions_run.
Qed.

Lemma cleared_is_reset s : is_reset (cleared s).
Proof. by repeat split. Qed.

Lemma same_query_refl s : same_query s s.
Proof. by repeat split. Qed.

Lemma same_query_inspect v s : same_query s (set_inspectValue v s).
Proof. by repeat split. Qed.
End Running.

(** ** The builder's chain methods *)

Section Chain.
Context {DB : Type}.
Implicit Types w : World DB.

(** C10: when the first argument of [where] is neither a string nor an
    object (a number, a boolean, [undefined], a function, a bigint),
    the call raises nothing, returns the builder itself and leaves the
    accumulated conditions, and every other field, as they were. *)
Theorem where_ignores_other_types (x v : Value) w :
  typeof x ≠ "string" → typeof x ≠ "object" →
  where_ x v w = (Normal This, w).
Proof.
  intros Hstring Hobject. unfold where_.
  destruct x; simpl in *; try congruence; reflexivity.
Qed.

(** C8, amended: for columns [a] and [c] other than [__proto__],
    [where(a,b).where(c,d)] and [where({a: b, c: d})] leave the builder
    in the same state; the conditions are the earlier ones with [a: b]
    then [c: d] written over them, which on a new builder is the map
    [{a: b, c: d}]. *)
Theorem where_chain_equals_where_map (a c : string) (b d v : Value) w :
  a ≠ "__proto__" → c ≠ "__proto__" →
  (where_ (VStr a) b ;;; where_ (VStr c) d) w
  = where_ (VObj (<[c := d]> (<[a := b]> ∅))) v w
  ∧ conditions (this ((where_ (VStr a) b ;;; where_ (VStr c) d) w).2)
    = <[c := d]> (<[a := b]> (conditions (this w)))
  ∧ conditions
      (this ((where_ (VStr a) b ;;; where_ (VStr c) d)
               {| this := fresh; db := db w |}).2)
    = <[c := d]> (<[a := b]> ∅).
Proof.
  intros Ha Hc.
  assert (∀ w,
    (where_ (VStr a) b ;;; where_ (VStr c) d) w
    = (Normal This,
       {| this := set_conditions
                    (<[c := d]> (<[a := b]> (conditions (this w)))) (this w);
          db := db w |})) as Hchain.
  { intros w'. unfold where_, assign. run_monad.
    by rewrite !bool_decide_eq_false_2 by done. }
  rewrite !Hchain. split; [|done].
  unfold where_, Object_assign. run_monad.
  rewrite lookup_insert_ne, lookup_insert_ne, lookup_empty by done.
  unfold set_conditions; simpl. do 3 f_equal.
  by rewrite <- !insert_union_l, (left_id_L ∅ (∪)).
Qed.


(** C9: when the predicate given to [verify] resolves to [false],
    [verify] raises the ModelError "Unverified state occured"; a
    [create] chained on its result is not run, so the whole chain
    raises the same error and the table is as the predicate left
    it. *)
Theorem verify_false_stops_chain (table : Table DB)
    (callback : M DB Value) (data : Value) w w1 :
  callback w = (Normal (VBool false), w1) →
  let unverified := new ModelError "Unverified state occured" in
  let left :=
    {| this := set_inspectValue (VBool false) (this w1); db := db w1 |} in
  verify callback w = (Throw unverified, left)
  ∧ (verify callback ;;; create table data) w = (Throw unverified, left).
Proof.
  intros Hcb unverified left.
  assert (verify callback w = (Throw unverified, left)) as Hv.
  { unfold verify. rewrite (bind_normal _ _ _ _ _ Hcb).
    unfold bind at 1. rewrite inspect_run.
    unfold bind at 1. rewrite mustBeAn_run by apply known_boolean.
    reflexivity. }
  split; [exact Hv|].
  by rewrite (bind_throw _ _ _ _ _ Hv).
Qed.
End Chain.

(** ** Terminal operations *)

Opaque buildOptions derived_options.

(** Case analysis on whatever a hypothesis still branches on: the
    outcome of a driver call, a test, a pair. *)
Ltac branch :=
  match goal with
  | H : context [match ?x with _ => _ end] |- _ => destruct x eqn:?
  end.

Ltac unfold_methods :=
  unfold run, create, insert_, get, getOrCreate, getWhere, find, first,
    exists_, update, delete_, truncate, inspect, mustBeAn,
    set_where, set_attributes, set_option, clear, resetThrowError in *;
  run_monad; rewrite ?buildOptions_cases in *; simpl in *.

Ltac by_cases :=
  unfold_methods; repeat (branch; simpl in * ); simplify_eq.

Section Terminal.
Context {DB : Type}.
Variable table : Table DB.
Variable JSON_stringify : Value → Completion string.
Implicit Types w : World DB.

Lemma get_clears columns conds w v w' :
  get table columns conds w = (Normal v, w') → is_reset (this w').
Proof. intros H. by_cases; apply cleared_is_reset. Qed.

Lemma getWhere_clears conds w v w' :
  getWhere table conds w = (Normal v, w') → is_reset (this w').
Proof. intros H. by_cases; apply cleared_is_reset. Qed.

Lemma first_clears w v w' :
  first table w = (Normal v, w') → is_reset (this w').
Proof. intros H. by_cases; apply cleared_is_reset. Qed.

Lemma exists_clears conds w v w' :
  exists_ table conds w = (Normal v, w') → is_reset (this w').
Proof. intros H. by_cases; apply cleared_is_reset. Qed.

Lemma update_clears payload conds w v w' :
  update table payload conds w = (Normal v, w') → is_reset (this w').
Proof. intros H. by_cases; apply cleared_is_reset. Qed.

Lemma delete_clears conds w v w' :
  delete_ table conds w = (Normal v, w') → is_reset (this w').
Proof. intros H. by_cases; apply cleared_is_reset. Qed.

Lemma find_resets_flag key w v w' :
  find table key w = (Normal v, w') →
  this w' = set_throwError (VBool false) (this w).
Proof. intros H. by by_cases. Qed.

Lemma find_throw_keeps key w e w' :
  find table key w = (Throw e, w') → this w' = this w.
Proof. intros H. by by_cases. Qed.

Lemma find_is_followed key w w' : find table key w ≠ (Beyond, w').
Proof. intros H. by by_cases. Qed.

Lemma getOrCreate_resets_flag data w v w' :
  getOrCreate table JSON_stringify data w = (Normal v, w') →
  this w' = set_throwError (VBool false) (set_inspectValue data (this w)).
Proof. intros H. by by_cases. Qed.

Lemma getOrCreate_throw_keeps data w e w' :
  getOrCreate table JSON_stringify data w = (Throw e, w') →
  this w' = set_inspectValue data (this w).
Proof. intros H. by by_cases. Qed.

Lemma getOrCreate_beyond_keeps data w w' :
  getOrCreate table JSON_stringify data w = (Beyond, w') →
  this w' = set_inspectValue data (this w).
Proof. intros H. by by_cases. Qed.

Lemma create_keeps data w r w' :
  create table data w = (r, w') → this w' = set_inspectValue data (this w).
Proof. intros H. by by_cases. Qed.

Lemma insert_keeps data w r w' :
  insert_ table data w = (r, w') → this w' = set_inspectValue data (this w).
Proof. intros H. by by_cases. Qed.

Lemma truncate_keeps w r w' :
  truncate table w = (r, w') → this w' = this w.
Proof. intros H. by by_cases. Qed.

(** C1, amended: a terminal operation that completes without throwing
    leaves the query state according to how it ends. [get], [getWhere],
    [first], [exists], [update] and [delete] end in [clear]: conditions
    and options are the empty map, attributes and orders the empty list,
    limitValue and offsetValue [null], throwError [false]. [find] and
    [getOrCreate] end in [resetThrowError]: throwError is [false], the
    other fields are as before. [create], [insert] and [truncate] leave
    all of them as before. *)
Theorem terminal_leaves (op : Terminal) w w' (v : Value) :
  run table JSON_stringify op w = (Normal v, w') →
  leaves op (this w) (this w').
Proof.
  destruct op; simpl; intros H.
  - rewrite (create_keeps _ _ _ _ H). apply same_query_inspect.
  - rewrite (insert_keeps _ _ _ _ H). apply same_query_inspect.
  - by eapply get_clears.
  - by eapply getWhere_clears.
  - rewrite (find_resets_flag _ _ _ _ H). apply same_query_refl.
  - by eapply first_clears.
  - by eapply exists_clears.
  - rewrite (getOrCreate_resets_flag _ _ _ _ H). by repeat split.
  - by eapply update_clears.
  - by eapply delete_clears.
  - rewrite (truncate_keeps _ _ _ H). apply same_query_refl.
Qed.

(** C4, amended: when [find] or [getOrCreate] returns, throwError is
    [false]; when either raises, whether the not-found or already-exists
    error or a wrapped driver failure, throwError is what it was before
    the call. [find] never leaves what is followed; [getOrCreate] does
    so only where [JSON.stringify] does, throwError being what it
    was. *)
Theorem throwError_reset_on_return_only w :
  (∀ key,
     match find table key w with
     | (Normal _, w') => throwError (this w') = VBool false
     | (Throw _, w') => throwError (this w') = throwError (this w)
     | (Beyond, _) => False
     end)
  ∧ (∀ data,
       match getOrCreate table JSON_stringify data w with
       | (Normal _, w') => throwError (this w') = VBool false
       | (Throw _, w') => throwError (this w') = throwError (this w)
       | (Beyond, w') => throwError (this w') = throwError (this w)
       end).
Proof.
  split.
  - intros key. destruct (find table key w) as [[v|e|] w'] eqn:H.
    + by rewrite (find_resets_flag _ _ _ _ H).
    + by rewrite (find_throw_keeps _ _ _ _ H).
    + by apply find_is_followed in H.
  - intros data.
    destruct (getOrCreate table JSON_stringify data w) as [[v|e|] w'] eqn:H.
    + by rewrite (getOrCreate_resets_flag _ _ _ _ H).
    + by rewrite (getOrCreate_throw_keeps _ _ _ _ H).
    + by rewrite (getOrCreate_beyond_keeps _ _ _ H).
Qed.


(** What [update] does with each outcome of the driver's call: a promise
    is returned as it is, so its rejection is the rejection of [update];
    a throw reaches the handler, where [UpdateError] is called without
    [new]. *)
Lemma update_outcome (payload conds : Value) w (outcome : Call Value) :
  options (this w) !! "hasOwnProperty" = None →
  (∀ opts d, table_update table payload opts d = (outcome, d)) →
  (update table payload conds w).1
  = match outcome with
    | Throws _ =>
        Throw (new TypeError
          "Class constructor UpdateError cannot be invoked without 'new'")
    | Returns (Rejected e) => Throw e
    | Returns (Fulfilled v) => Normal v
    end.
Proof.
  intros Hown Hcall. unfold_methods. rewrite Hown. simpl.
  destruct (not_null (default_to VNull conds)
            && bool_decide (typeof (default_to VNull conds) = "object"));
    simpl; rewrite Hcall; by destruct outcome as [e|[v|e]].
Qed.

(** What [first] does when the driver's call fails with [e]: a
    NotFoundError goes through, anything else makes the handler evaluate
    [id], which nothing binds. *)
Lemma first_failure w (outcome : Call Value) (e : Exception) :
  options (this w) !! "hasOwnProperty" = None →
  outcome = Throws e ∨ outcome = Returns (Rejected e) →
  (∀ opts d, findOne table opts d = (outcome, d)) →
  (first table w).1
  = Throw (if instanceof e NotFoundError then e
           else new ReferenceError "id is not defined").
Proof.
  intros Hown Hfail Hcall. unfold_methods. rewrite Hown. simpl.
  rewrite Hcall.
  destruct Hfail as [-> | ->]; by destruct (instanceof e NotFoundError).
Qed.
End Terminal.

Transparent buildOptions derived_options.

(** ** The claims on concrete tables *)

Lemma where_ignores_other_types_witness :
  typeof (VNum 5) ≠ "string" ∧ typeof (VNum 5) ≠ "object"
  ∧ where_ (VNum 5) (VStr "User 1") Users = (Normal This, Users).
Proof.
  split; [simpl; discriminate|]. split; [simpl; discriminate|].
  apply (where_ignores_other_types (VNum 5) (VStr "User 1") Users);
    simpl; discriminate.
Defined.

Lemma verify_false_stops_chain_witness :
  phone_is_free (memory_table "users") "1234567890" Users
  = (Normal (VBool false),
     {| this := set_inspectValue VNull fresh; db := users |})
  ∧ (verify (phone_is_free (memory_table "users") "1234567890") ;;;
     create (memory_table "users") (user 3 "User 3" "1234567890")) Users
    = (Throw (new ModelError "Unverified state occured"),
       {| this := set_inspectValue (VBool false) fresh; db := users |}).
Proof.
  split; [vm_compute; reflexivity|].
  apply (verify_false_stops_chain (memory_table "users")
           (phone_is_free (memory_table "users") "1234567890")
           (user 3 "User 3" "1234567890") Users
           {| this := set_inspectValue VNull fresh; db := users |}).
  vm_compute; reflexivity.
Defined.


Lemma terminal_leaves_witness :
  run (memory_table "users") show_keys (call_get [] VUndefined)
    {| this := set_conditions {["name" := VStr "User 2"]} fresh; db := users |}
  = (Normal (VArr [user 2 "User 2" "1234567891"]),
     {| this := set_inspectValue (VArr []) fresh; db := users |})
  ∧ is_reset (set_inspectValue (VArr []) fresh).
Proof.
  split; [vm_compute; reflexivity|].
  apply (terminal_leaves (memory_table "users") show_keys
           (call_get [] VUndefined)
           {| this := set_conditions {["name" := VStr "User 2"]} fresh;
              db := users |}
           {| this := set_inspectValue (VArr []) fresh; db := users |}
           (VArr [user 2 "User 2" "1234567891"])).
  vm_compute; reflexivity.
Defined.

(** C1, as stated, fails for [create]: called with a condition
    accumulated by [where], it returns the new row and the condition is
    still there. *)
Lemma create_leaves_conditions :
  create (memory_table "users") (user 3 "User 3" "1234567892")
    {| this := set_conditions {["name" := VStr "User 3"]} fresh; db := users |}
  = (Normal (user 3 "User 3" "1234567892"),
     {| this := set_inspectValue (user 3 "User 3" "1234567892")
                  (set_conditions {["name" := VStr "User 3"]} fresh);
        db := users ++ [user 3 "User 3" "1234567892"] |})
  ∧ ¬ is_reset
        (set_inspectValue (user 3 "User 3" "1234567892")
           (set_conditions {["name" := VStr "User 3"]} fresh)).
Proof.
  split; [vm_compute; reflexivity|].
  intros (Hconditions & _). simpl in Hconditions.
  apply (f_equal (lookup "name")) in Hconditions.
  vm_compute in Hconditions. discriminate.
Qed.

(** C4, as stated, fails when [find] raises: with throwError set by
    [withError(true)] and no row for the key, [find] raises the
    NotFoundError and throwError is still [true]. *)
Lemma find_error_keeps_throwError :
  find (memory_table "users") (VNum 99999)
    {| this := set_throwError (VBool true) fresh; db := users |}
  = (Throw (new NotFoundError "users not found with id 99999"),
     {| this := set_throwError (VBool true) fresh; db := users |})
  ∧ throwError (set_throwError (VBool true) fresh) ≠ VBool false.
Proof. split; [vm_compute; reflexivity | discriminate]. Qed.

(** C2, on a table whose [update] fails: when the promise it returns is
    rejected, [update] is rejected with the driver's own error, which is
    no UpdateError; when it throws, [update] is rejected with the
    TypeError of calling [UpdateError] without [new]. *)
Theorem update_failure_not_wrapped :
  (where_ (VStr "name") (VStr "User 1") ;;;
   update (failing_table "users" (rejecting refused))
     (VObj {["phone" := VStr "0987654321"]}) VUndefined) Offline
  = (Throw refused, Offline)
  ∧ instanceof refused UpdateError = false
  ∧ (where_ (VStr "name") (VStr "User 1") ;;;
     update (failing_table "users" (throwing refused))
       (VObj {["phone" := VStr "0987654321"]}) VUndefined) Offline
    = (Throw (new TypeError
         "Class constructor UpdateError cannot be invoked without 'new'"),
       {| this :=
            set_options {["where" := the_conditions]}
              (set_conditions {["name" := VStr "User 1"]} fresh);
          db := tt |}).
Proof. repeat split; vm_compute; reflexivity. Qed.

(** C6, on a table whose [findOne] fails: [first] raises neither a
    ReadError nor the driver's error but the ReferenceError of the
    unbound [id] in its handler; a NotFoundError, raised for an empty
    table after [withError(true)], goes through unchanged. *)
Theorem first_failure_not_wrapped :
  (first (failing_table "users" (rejecting refused)) Offline).1
  = Throw (new ReferenceError "id is not defined")
  ∧ (first (failing_table "users" (throwing refused)) Offline).1
    = Throw (new ReferenceError "id is not defined")
  ∧ ((withError (VBool true) ;;; first (memory_table "users"))
       {| this := fresh; db := [] |}).1
    = Throw (new NotFoundError "users not found").
Proof. repeat split; vm_compute; reflexivity. Qed.



(** C8, as stated, fails for the column [__proto__]: the write goes to
    the inherited setter, which ignores a number, so the chain leaves
    the other condition alone and not the map with both. *)
Lemma where_proto_is_no_condition :
  (where_ (VStr "__proto__") (VNum 1) ;;;
   where_ (VStr "name") (VStr "User 1")) Users
  = (Normal This,
     {| this := set_conditions {["name" := VStr "User 1"]} fresh;
        db := users |})
  ∧ ({["name" := VStr "User 1"]} : gmap string Value)
    ≠ (<["name" := VStr "User 1"]> (<["__proto__" := VNum 1]> ∅)).
Proof.
  split; [vm_compute; reflexivity|].
  intros Heq. apply (f_equal (lookup "__proto__")) in Heq.
  vm_compute in Heq. discriminate.
Qed.

Lemma where_chain_equals_where_map_witness :
  "name" ≠ "__proto__" ∧ "phone" ≠ "__proto__"
  ∧ conditions
      (this ((where_ (VStr "name") (VStr "User 1") ;;;
              where_ (VStr "phone") (VStr "1234567890")) Users).2)
    = <["phone" := VStr "1234567890"]>
        (<["name" := VStr "User 1"]> (conditions (this Users))).
Proof.
  split; [discriminate|]. split; [discriminate|].
  exact (proj1 (proj2 (where_chain_equals_where_map "name" "phone"
                         (VStr "User 1") (VStr "1234567890") VUndefined
                         Users ltac:(discriminate) ltac:(discriminate)))).
Defined.

(** C7: the class declares no [count] among its fields and methods, so
    on a builder the name reads as [undefined] and [Users.count()]
    raises a TypeError where the README and the test suite expect a
    number of rows; the [groupBy] of the same test is missing too. *)
Theorem count_is_no_method :
  ("count" ∉ fields ++ methods ++ Object_prototype)
  ∧ call_missing "Users" "count"
    = Some (new TypeError "Users.count is not a function")
  ∧ call_missing "Users" "groupBy"
    = Some (new TypeError "Users.groupBy is not a function")
  ∧ call_missing "Users" "truncate" = None.
Proof.
  split; [|by vm_compute].
  intros Hin. apply (bool_decide_eq_true_2 _) in Hin.
  vm_compute in Hin. discriminate.
Qed.

(** * Further properties of the class *)

(** ** Chain methods *)

Section MoreChain.
Context {DB : Type}.
Implicit Types w : World DB.

Lemma known_number : "number" ∈ knownTypes.
Proof. unfold knownTypes. set_solver. Qed.

Lemma derived_where s : derived_options s !! "where" = Some the_conditions.
Proof.
  unfold derived_options.
  by destruct (0 <? length (attributes s))%nat,
    (0 <? length (orders s))%nat,
    (not_null (limitValue s)), (not_null (offsetValue s)).
Qed.

Lemma derived_attributes s :
  derived_options s !! "attributes"
  = if (0 <? length (attributes s))%nat
    then Some (value (VArr (attributes s))) else None.
Proof.
  unfold derived_options.
  by destruct (0 <? length (attributes s))%nat,
    (0 <? length (orders s))%nat,
    (not_null (limitValue s)), (not_null (offsetValue s)).
Qed.

Lemma derived_limit s :
  derived_options s !! "limit"
  = if not_null (limitValue s) then Some (value (limitValue s)) else None.
Proof.
  unfold derived_options.
  by destruct (0 <? length (attributes s))%nat,
    (0 <? length (orders s))%nat,
    (not_null (limitValue s)), (not_null (offsetValue s)).
Qed.

Lemma derived_offset s :
  derived_options s !! "offset"
  = if not_null (offsetValue s) then Some (value (offsetValue s)) else None.
Proof.
  unfold derived_options.
  by destruct (0 <? length (attributes s))%nat,
    (0 <? length (orders s))%nat,
    (not_null (limitValue s)), (not_null (offsetValue s)).
Qed.

(** The options the driver is given by a call made right after
    [buildOptions]. *)
Lemma built_lookup s key :
  driver_options (built s) !! key
  = read s <$> (match options s !! key with
                | Some kept => Some kept
                | None => derived_options s !! key
                end).
Proof.
  unfold driver_options, built. rewrite lookup_fmap. simpl.
  rewrite lookup_union.
  destruct (options s !! key) as [kept|], (derived_options s !! key) as [x|];
    simpl; try done.
  all: by destruct kept.
Qed.

Lemma built_chain w :
  options (this w) !! "hasOwnProperty" = None →
  (buildOptions ;;; gets driver_options) w
  = (Normal (driver_options (built (this w))),
     {| this := built (this w); db := db w |}).
Proof. intros Hown. unfold bind. by rewrite buildOptions_run. Qed.

Lemma then_built {A} (m : M DB A) w (a : A) w' :
  m w = (Normal a, w') →
  options (this w') !! "hasOwnProperty" = None →
  (m ;;; buildOptions ;;; gets driver_options) w
  = (Normal (driver_options (built (this w'))),
     {| this := built (this w'); db := db w' |}).
Proof.
  intros H Hown. rewrite (bind_normal _ _ _ _ _ H). by apply built_chain.
Qed.

(** Writing one option of the built ones. *)
Lemma driver_options_insert key v s :
  driver_options (set_options (<[key := value v]> (options s)) s)
  = <[key := v]> (driver_options s).
Proof. unfold driver_options. simpl. by rewrite fmap_insert. Qed.

Lemma derived_options_inspect v s :
  derived_options (set_inspectValue v s) = derived_options s.
Proof. reflexivity. Qed.

Lemma driver_options_built_inspect v s :
  driver_options (built (set_inspectValue v s)) = driver_options (built s).
Proof. reflexivity. Qed.

(** X1: [limit] and [offset] given anything but a number raise a
    TypeError, each with its own message, before they store anything:
    limitValue and offsetValue are as they were, only the inspected
    value is kept. *)
Theorem limit_offset_need_number (n : Value) w :
  typeof n ≠ "number" →
  limit n w
  = (Throw (new TypeError "limit in limit method must be a number"),
     {| this := set_inspectValue n (this w); db := db w |})
  ∧ offset n w
    = (Throw (new TypeError "Offset must be a number"),
       {| this := set_inspectValue n (this w); db := db w |}).
Proof.
  intros Hn. unfold limit, offset.
  unfold bind at 1 4. rewrite !inspect_run.
  unfold bind at 1 3. rewrite !mustBeAn_run by apply known_number. simpl.
  by rewrite bool_decide_eq_false_2.
Qed.

(** X2: a number given to [limit] (or [offset]) is what the driver gets
    as [limit] (or [offset]) from the options built next, when the
    overlay defines neither that key nor [hasOwnProperty]. *)
Theorem limit_offset_reach_driver (n : Value) w :
  typeof n = "number" →
  options (this w) !! "hasOwnProperty" = None →
  options (this w) !! "limit" = None →
  options (this w) !! "offset" = None →
  (∃ opts,
     (limit n ;;; buildOptions ;;; gets driver_options) w
     = (Normal opts,
        {| this := built (set_limitValue n (set_inspectValue n (this w)));
           db := db w |})
     ∧ opts !! "limit" = Some n)
  ∧ (∃ opts,
       (offset n ;;; buildOptions ;;; gets driver_options) w
       = (Normal opts,
          {| this := built (set_offsetValue n (set_inspectValue n (this w)));
             db := db w |})
       ∧ opts !! "offset" = Some n).
Proof.
  intros Hn Hown Hlimit Hoffset. destruct n; try discriminate.
  split; eexists;
    (split; [by erewrite then_built by (reflexivity || exact Hown)|]);
    rewrite built_lookup; simpl.
  - by rewrite Hlimit, derived_limit.
  - by rewrite Hoffset, derived_offset.
Qed.

(** X3: an option set with [option] under a key other than
    [hasOwnProperty] and [__proto__], by key or as a property of an
    object that has neither of the two, is what the driver gets under
    that key from the options built next, whatever conditions,
    projection, order, limit or offset the builder holds, as long as the
    overlay has no [hasOwnProperty] of its own. *)
Theorem option_reaches_driver (m : gmap string Value) (key : string)
    (v unused : Value) w :
  options (this w) !! "hasOwnProperty" = None →
  key ≠ "hasOwnProperty" → key ≠ "__proto__" →
  m !! "hasOwnProperty" = None → m !! "__proto__" = None →
  m !! key = Some v →
  (∃ opts,
     ((option_ (VStr key) v ;;; buildOptions ;;; gets driver_options) w).1
     = Normal opts
     ∧ opts !! key = Some v)
  ∧ (∃ opts,
       ((option_ (VObj m) unused ;;; buildOptions ;;; gets driver_options)
          w).1
       = Normal opts
       ∧ opts !! key = Some v).
Proof.
  intros Hown Hmethod Hproto Hm_method Hm_proto Hkey.
  split; eexists.
  - split.
    + erewrite then_built; [reflexivity| |].
      * unfold option_, assign. run_monad.
        by rewrite bool_decide_eq_false_2 by done.
      * simpl. by rewrite lookup_insert_ne.
    + rewrite built_lookup. simpl. by rewrite lookup_insert_eq.
  - split.
    + erewrite then_built; [reflexivity| |].
      * unfold option_, Object_assign. run_monad.
        by rewrite lookup_fmap, Hm_proto.
      * simpl. apply lookup_union_None_2; [|done].
        by rewrite lookup_fmap, Hm_method.
    + rewrite built_lookup. simpl.
      by rewrite lookup_union, lookup_fmap, Hkey; simpl;
        destruct (options (this w) !! key).
Qed.

(** X4: for a column [a] other than [__proto__], after [where(a, b)]
    the condition on [a] is [b] and every other condition is as before;
    after [where(m)] for an object [m] that has no [__proto__] of its
    own, a column of [m] has the value [m] gives it and every other
    condition is as before. A later call on the same column replaces
    the earlier one. *)
Theorem where_then_lookup (a : string) (b unused : Value)
    (m : gmap string Value) (k : string) w :
  a ≠ "__proto__" → m !! "__proto__" = None →
  conditions (this (where_ (VStr a) b w).2) !! k
  = (if decide (a = k) then Some b else conditions (this w) !! k)
  ∧ conditions (this (where_ (VObj m) unused w).2) !! k
    = match m !! k with
      | Some x => Some x
      | None => conditions (this w) !! k
      end.
Proof.
  intros Ha Hm. unfold where_, assign, Object_assign. run_monad.
  rewrite bool_decide_eq_false_2 by done. rewrite Hm. simpl.
  split.
  - apply lookup_insert.
  - rewrite lookup_union.
    by destruct (m !! k), (conditions (this w) !! k).
Qed.

(** X5: [where] given [null], an empty object or an empty array passes
    the ["object"] test and changes nothing. *)
Theorem where_nothing_to_assign (x v : Value) w :
  typeof x = "object" → own_properties x = ∅ →
  where_ x v w = (Normal This, w).
Proof.
  intros Hobject Hempty. destruct w as [s d].
  destruct x; try discriminate; unfold where_, Object_assign; run_monad;
    unfold set_conditions; simpl in *; rewrite ?Hempty;
    rewrite ?lookup_empty; simpl;
    rewrite (left_id_L ∅ (∪)); by destruct s.
Qed.

(** X6: when the direction in upper case is neither ["ASC"] nor
    ["DESC"], [orderBy] raises a ModelError and changes nothing. *)
Theorem orderBy_rejects (toUpperCase : string → string) (column : Value)
    (direction : string) w :
  toUpperCase direction ≠ "ASC" → toUpperCase direction ≠ "DESC" →
  orderBy toUpperCase column (Some direction) w
  = (Throw (new ModelError "Order available: ASC or DESC"), w).
Proof.
  intros Hasc Hdesc. unfold orderBy. simpl.
  rewrite bool_decide_eq_false_2; [done|].
  intros Hin.
  repeat (apply elem_of_cons in Hin as [?|Hin]; [done|]).
  by apply elem_of_nil in Hin.
Qed.

(** X7: calls of [orderBy] compose: two calls with valid directions add
    their two pairs, in the order of the calls and with the direction in
    upper case, after the orders already there; no other field
    changes. *)
Theorem orderBy_composes (toUpperCase : string → string)
    (c1 c2 : Value) (d1 d2 : string) w :
  toUpperCase d1 ∈ ["ASC"; "DESC"] → toUpperCase d2 ∈ ["ASC"; "DESC"] →
  (orderBy toUpperCase c1 (Some d1) ;;; orderBy toUpperCase c2 (Some d2)) w
  = (Normal This,
     {| this :=
          put_orders
            (orders (this w)
             ++ [VArr [c1; VStr (toUpperCase d1)];
                 VArr [c2; VStr (toUpperCase d2)]])
            (this w);
        db := db w |}).
Proof.
  intros H1 H2. unfold orderBy. simpl.
  unfold bind at 1.
  rewrite (bool_decide_eq_true_2 _ H1). simpl.
  rewrite (bool_decide_eq_true_2 _ H2). run_monad.
  unfold put_orders; simpl. by rewrite <- app_assoc.
Qed.

(** X8: [needColumns] replaces the projection: of two calls only the
    second counts, and once the options are built the driver gets that
    list as [attributes], or no [attributes] when the list is empty,
    when the overlay defines neither the key nor [hasOwnProperty]. *)
Theorem needColumns_replaces (first_columns columns : list Value) w :
  options (this w) !! "hasOwnProperty" = None →
  options (this w) !! "attributes" = None →
  (needColumns first_columns ;;; needColumns columns) w
  = needColumns columns w
  ∧ ∃ opts,
      ((needColumns columns ;;; buildOptions ;;; gets driver_options) w).1
      = Normal opts
      ∧ opts !! "attributes"
        = if (0 <? length columns)%nat then Some (VArr columns) else None.
Proof.
  intros Hown Hoverlay. split; [reflexivity|].
  eexists.
  split; [by erewrite then_built by (reflexivity || exact Hown)|].
  rewrite built_lookup. simpl. rewrite Hoverlay, derived_attributes. simpl.
  by destruct (0 <? length columns)%nat.
Qed.

(** X9: [setOrders] puts its list in place of the orders, whatever they
    were, and a later [orderBy] adds to that list. *)
Theorem setOrders_then_orderBy (toUpperCase : string → string)
    (new_orders : list Value) (column : Value) (direction : string) w :
  toUpperCase direction ∈ ["ASC"; "DESC"] →
  orders (this ((setOrders new_orders ;;;
                 orderBy toUpperCase column (Some direction)) w).2)
  = new_orders ++ [VArr [column; VStr (toUpperCase direction)]].
Proof.
  intros Hdir. unfold orderBy, setOrders. simpl.
  rewrite (bool_decide_eq_true_2 _ Hdir). reflexivity.
Qed.


(** X11: a callback that resolves to anything but a boolean, a truthy
    value included, makes [verify] and [verifySync] raise a TypeError,
    each with its own message. *)
Theorem verify_needs_boolean (callback : M DB Value) (v : Value) w w1 :
  callback w = (Normal v, w1) →
  typeof v ≠ "boolean" →
  verify callback w
  = (Throw (new TypeError "verify callback must return boolean value"),
     {| this := set_inspectValue v (this w1); db := db w1 |})
  ∧ verifySync callback w
    = (Throw
         (new TypeError "verifySync callback must return boolean value"),
       {| this := set_inspectValue v (this w1); db := db w1 |}).
Proof.
  intros Hcb Hv. unfold verify, verifySync.
  rewrite !(bind_normal _ _ _ _ _ Hcb).
  split; unfold bind at 1; rewrite inspect_run; unfold bind at 1;
    rewrite mustBeAn_run by apply known_boolean; simpl;
    by rewrite bool_decide_eq_false_2.
Qed.
End MoreChain.


(** ** Terminal operations: arguments, failures, what the driver is given *)

Opaque buildOptions derived_options.

Ltac known_type :=
  rewrite ?(bool_decide_eq_true_2 _ known_object) in *;
  rewrite ?(bool_decide_eq_true_2 _ known_boolean) in *;
  unfold identifier in *;
  simpl in *.

Ltac split_tests :=
  repeat match goal with
         | |- context [if ?b then _ else _] => destruct b
         end;
  simpl.

Ltac failed_with H :=
  match type of H with
  | failure ?outcome = Some _ =>
      destruct outcome as [?|[?|?]]; simpl in H; simplify_eq
  end.

(** The options of the goal and of the hypotheses in one form. *)
Ltac handed_options :=
  unfold get_options, conditioned_options, getWhere_options,
    truncate_options, insert_call, driver_options, built, read in *;
  simpl in *; rewrite ?fmap_insert, ?derived_options_inspect in *;
  simpl in *.

Section MoreTerminal.
Context {DB : Type}.
Variable table : Table DB.
Variable JSON_stringify : Value → Completion string.
Implicit Types w : World DB.

(** X12: [create], [insert], [getOrCreate] and [exists] test their
    argument before they call the driver: one that is not an object
    raises a TypeError that no handler wraps, and the database is not
    touched. For [exists] an argument left out counts as [null]. *)
Theorem argument_must_be_object (data : Value) w :
  typeof data ≠ "object" →
  let inspected := {| this := set_inspectValue data (this w); db := db w |} in
  create table data w
  = (Throw (new TypeError "Inserted data must have type of object"),
     inspected)
  ∧ insert_ table data w
    = (Throw (new TypeError
         "Inserted data must be an object or array of objects"),
       inspected)
  ∧ getOrCreate table JSON_stringify data w
    = (Throw (new TypeError "Inserted data must have type of object"),
       inspected)
  ∧ match data with
    | VUndefined => exists_ table data w = exists_ table VNull w
    | _ =>
        exists_ table data w
        = (Throw (new TypeError
             "conditions in exists method must be an object"),
           inspected)
    end.
Proof.
  intros Hdata inspected. subst inspected.
  assert (bool_decide (typeof data = "object") = false) as Hcheck
    by by apply bool_decide_eq_false_2.
  repeat split; [| | |destruct data; try done];
    unfold_methods; known_type; try rewrite Hcheck; try done.
Qed.

(** X13: when the call that [create] makes to the driver fails, thrown
    or rejected, [create] raises a CreateError whose message names the
    table and ends with the driver's message; the query state is not
    touched. *)
Theorem create_wraps_failure (data : Value) w
    (outcome : Call Value) (e : Exception) (d : DB) :
  typeof data = "object" →
  table_create table data (db w) = (outcome, d) →
  failure outcome = Some e →
  create table data w
  = (Throw (new CreateError
       ("Error creating " +:+ name table +:+ ": " +:+ message e)),
     {| this := set_inspectValue data (this w); db := d |}).
Proof.
  intros Hdata Hcall Hfail. unfold_methods; known_type.
  rewrite (bool_decide_eq_true_2 _ Hdata); simpl. rewrite Hcall.
  by failed_with Hfail.
Qed.

(** X26: when the call that [insert] makes to the driver, [bulkCreate]
    for an array and [create] for anything else, fails, [insert] raises
    a CreateError whose message names the table and ends with the
    driver's message; the query state is not touched. *)
Theorem insert_wraps_failure (data : Value) w
    (outcome : Call Value) (e : Exception) (d : DB) :
  typeof data = "object" →
  insert_call table data (db w) = (outcome, d) →
  failure outcome = Some e →
  insert_ table data w
  = (Throw (new CreateError
       ("Error inserting into " +:+ name table +:+ ": " +:+ message e)),
     {| this := set_inspectValue data (this w); db := d |}).
Proof.
  intros Hdata Hcall Hfail. unfold_methods; known_type.
  rewrite (bool_decide_eq_true_2 _ Hdata); simpl.
  unfold insert_call in Hcall.
  destruct (isArray data); simpl; rewrite Hcall; by failed_with Hfail.
Qed.

(** X14: when the call that [get] makes to the driver fails, [get]
    raises a ReadError whose message is "Fail fetching data: " followed
    by the driver's message; the builder is not cleared, the
    accumulated conditions are still there. *)
Theorem get_wraps_failure (columns : list Value) (conds : Value) w
    (outcome : Call Value) (e : Exception) (d : DB) :
  options (this w) !! "hasOwnProperty" = None →
  findAll table (get_options columns conds (this w)) (db w)
  = (outcome, d) →
  failure outcome = Some e →
  (get table columns conds w).1
  = Throw (new ReadError ("Fail fetching data: " +:+ message e))
  ∧ conditions (this (get table columns conds w).2) = conditions (this w)
  ∧ db (get table columns conds w).2 = d.
Proof.
  intros Hown Hcall Hfail. unfold_methods; known_type.
  rewrite Hown. handed_options.
  destruct (bool_decide (typeof (default_to VNull conds) = "object")
            && not_null (default_to VNull conds)),
    (0 <? length columns)%nat; handed_options;
    rewrite Hcall; by failed_with Hfail.
Qed.

(** X27: when the call that [getWhere] makes to the driver fails,
    [getWhere] raises a ReadError whose message is "Fail fetching
    data: " followed by the driver's message, and the builder is as it
    was. *)
Theorem getWhere_wraps_failure (conds : Value) w
    (outcome : Call Value) (e : Exception) (d : DB) :
  findAll table (getWhere_options conds (this w)) (db w) = (outcome, d) →
  failure outcome = Some e →
  getWhere table conds w
  = (Throw (new ReadError ("Fail fetching data: " +:+ message e)),
     {| this := this w; db := d |}).
Proof.
  intros Hcall Hfail. unfold_methods. handed_options.
  rewrite Hcall; by failed_with Hfail.
Qed.

(** X28: when the call that [exists] makes to the driver fails,
    [exists] raises a ReadError whose message is "Error in exists
    method: " followed by the driver's message; the builder is not
    cleared, the accumulated conditions are still there. *)
Theorem exists_wraps_failure (conds : Value) w
    (outcome : Call Value) (e : Exception) (d : DB) :
  options (this w) !! "hasOwnProperty" = None →
  typeof (default_to VNull conds) = "object" →
  findOne table (conditioned_options conds (this w)) (db w)
  = (outcome, d) →
  failure outcome = Some e →
  (exists_ table conds w).1
  = Throw (new ReadError ("Error in exists method: " +:+ message e))
  ∧ conditions (this (exists_ table conds w).2) = conditions (this w)
  ∧ db (exists_ table conds w).2 = d.
Proof.
  intros Hown Hconds Hcall Hfail. unfold_methods; known_type.
  handed_options. rewrite (bool_decide_eq_true_2 _ Hconds) in *.
  simpl in *. rewrite buildOptions_cases. simpl. rewrite Hown.
  handed_options.
  destruct (not_null (default_to VNull conds)); handed_options;
    rewrite Hcall; by failed_with Hfail.
Qed.

(** X15: when the call that [delete] makes to the driver fails,
    [delete] raises a DeleteError whose message names the table and
    ends with the driver's message; the builder is not cleared, the
    accumulated conditions are still there. *)
Theorem delete_wraps_failure (conds : Value) w
    (outcome : Call Value) (e : Exception) (d : DB) :
  options (this w) !! "hasOwnProperty" = None →
  destroy table (conditioned_options conds (this w)) (db w)
  = (outcome, d) →
  failure outcome = Some e →
  (delete_ table conds w).1
  = Throw (new DeleteError
      ("Error deleting from " +:+ name table +:+ ": " +:+ message e))
  ∧ conditions (this (delete_ table conds w).2) = conditions (this w)
  ∧ db (delete_ table conds w).2 = d.
Proof.
  intros Hown Hcall Hfail. unfold_methods; known_type.
  rewrite Hown. handed_options.
  rewrite (andb_comm (not_null _)).
  destruct (bool_decide (typeof (default_to VNull conds) = "object")
            && not_null (default_to VNull conds)); handed_options;
    rewrite Hcall; by failed_with Hfail.
Qed.

(** X29: when the call that [truncate] makes to the driver fails,
    [truncate] raises a DeleteError whose message names the table and
    ends with the driver's message, and the builder is as it was. *)
Theorem truncate_wraps_failure w
    (outcome : Call Value) (e : Exception) (d : DB) :
  destroy table truncate_options (db w) = (outcome, d) →
  failure outcome = Some e →
  truncate table w
  = (Throw (new DeleteError
       ("Error truncating " +:+ name table +:+ ": " +:+ message e)),
     {| this := this w; db := d |}).
Proof.
  intros Hcall Hfail. unfold_methods; known_type. handed_options.
  rewrite Hcall; by failed_with Hfail.
Qed.


(** X17: when the driver's findOrCreate is fulfilled, [getOrCreate]
    returns the row and resets throwError, unless the row was not
    created and throwError is truthy: then it raises a CreateError that
    names the table and shows the data, and throwError stays. A failure
    of [JSON.stringify] at that point is raised as a ModelError. *)
Theorem getOrCreate_found (data item created : Value) w (d : DB) :
  typeof data = "object" →
  findOrCreate table {["where" := data]} (db w)
  = (Returns (Fulfilled (item, created)), d) →
  let inspected := set_inspectValue data (this w) in
  getOrCreate table JSON_stringify data w
  = if negb (truthy created) && truthy (throwError (this w))
    then
      (match JSON_stringify data with
       | Normal json =>
           Throw (new CreateError
             (name table +:+ " already exists with data " +:+ json))
       | Throw e =>
           Throw (if instanceof e CreateError then e
                  else new ModelError
                         ("Error creating or finding " +:+ name table
                          +:+ ": " +:+ message e))
       | Beyond => Beyond
       end,
       {| this := inspected; db := d |})
    else
      (Normal item,
       {| this := set_throwError (VBool false) inspected; db := d |}).
Proof.
  intros Hdata Hcall inspected. subst inspected.
  unfold_methods; known_type.
  rewrite (bool_decide_eq_true_2 _ Hdata); simpl. rewrite Hcall. simpl.
  destruct (negb (truthy created) && truthy (throwError (this w))); simpl;
    [|done].
  destruct (JSON_stringify data) as [json|e|]; simpl; [done| |done].
  by destruct (instanceof e CreateError).
Qed.

(** X18: a failure of the driver in [getOrCreate] is raised as a
    ModelError, not a CreateError, whose message names the table and
    ends with the driver's message, unless the failure is a CreateError,
    which is raised as it is. *)
Theorem getOrCreate_wraps_failure (data : Value) w
    (outcome : Call (Value * Value)) (e : Exception) (d : DB) :
  typeof data = "object" →
  failure outcome = Some e →
  findOrCreate table {["where" := data]} (db w) = (outcome, d) →
  getOrCreate table JSON_stringify data w
  = (Throw (if instanceof e CreateError then e
            else new ModelError
                   ("Error creating or finding " +:+ name table +:+ ": "
                    +:+ message e)),
     {| this := set_inspectValue data (this w); db := d |}).
Proof.
  intros Hdata Hfail Hcall. unfold_methods; known_type.
  rewrite (bool_decide_eq_true_2 _ Hdata); simpl. rewrite Hcall.
  failed_with Hfail; by destruct (instanceof e CreateError).
Qed.

(** X19: [exists] returns whether the row that the driver finds for the
    options it is given is not [null] (so [true] also for a driver that
    answers [undefined]) and clears the builder. *)
Theorem exists_result (conds item : Value) w (d : DB) :
  options (this w) !! "hasOwnProperty" = None →
  typeof (default_to VNull conds) = "object" →
  findOne table (conditioned_options conds (this w)) (db w)
  = (Returns (Fulfilled item), d) →
  exists_ table conds w
  = (Normal (VBool (not_null item)),
     {| this := cleared (set_inspectValue (default_to VNull conds) (this w));
        db := d |}).
Proof.
  intros Hown Hconds Hone. unfold_methods; known_type.
  handed_options. rewrite (bool_decide_eq_true_2 _ Hconds) in *.
  simpl in *. rewrite buildOptions_cases. simpl. rewrite Hown.
  handed_options.
  destruct (not_null (default_to VNull conds)); handed_options;
    by rewrite Hone.
Qed.

(** X20: conditions given to [get], [update] or [delete] that are not an
    object (a string, a number, a boolean) are dropped without an error:
    the driver is given the options built from what the builder has
    accumulated, whose [where] is the overlay's if it has one and the
    accumulated conditions otherwise. *)
Theorem non_object_conditions_ignored (payload conds : Value) w :
  typeof conds ≠ "object" →
  options (this w) !! "hasOwnProperty" = None →
  let opts := driver_options (built (this w)) in
  opts !! "where"
  = Some (match options (this w) !! "where" with
          | Some kept => read (this w) kept
          | None => VObj (conditions (this w))
          end)
  ∧ (get table [] conds w).1
    = match (findAll table opts (db w)).1 with
      | Returns (Fulfilled items) => Normal items
      | Throws e | Returns (Rejected e) =>
          Throw (new ReadError ("Fail fetching data: " +:+ message e))
      end
  ∧ (update table payload conds w).1
    = match (table_update table payload opts (db w)).1 with
      | Returns (Fulfilled items) => Normal items
      | Returns (Rejected e) => Throw e
      | Throws e =>
          Throw (new TypeError
            "Class constructor UpdateError cannot be invoked without 'new'")
      end
  ∧ (delete_ table conds w).1
    = match (destroy table opts (db w)).1 with
      | Returns (Fulfilled result) => Normal result
      | Throws e | Returns (Rejected e) =>
          Throw (new DeleteError
            ("Error deleting from " +:+ name table +:+ ": " +:+ message e))
      end.
Proof.
  intros Hconds Hown opts. subst opts. split.
  - rewrite built_lookup, derived_where.
    by destruct (options (this w) !! "where").
  - assert (bool_decide (typeof (default_to VNull conds) = "object")
            && not_null (default_to VNull conds) = false) as Hskip
      by (by destruct conds).
    assert (not_null (default_to VNull conds)
            && bool_decide (typeof (default_to VNull conds) = "object")
            = false) as Hskip' by (by destruct conds).
    repeat split; unfold_methods; known_type; rewrite Hown;
      handed_options; rewrite ?Hskip, ?Hskip'; handed_options.
    + by destruct (findAll _ _ _) as [[e|[items|e]] d].
    + by destruct (table_update _ _ _ _) as [[e|[items|e]] d].
    + by destruct (destroy _ _ _) as [[e|[items|e]] d].
Qed.

(** X21: conditions and columns given to [get] win over everything
    else: the driver gets the built options with [where] replaced by
    the conditions, even when the overlay defines [where], and
    [attributes] replaced by the columns; [get] returns the rows the
    driver finds or wraps its failure. The overlay has no
    [hasOwnProperty] of its own. *)
Theorem get_explicit_override (columns : list Value) (conds : Value) w :
  options (this w) !! "hasOwnProperty" = None →
  typeof conds = "object" → not_null conds = true → columns ≠ [] →
  let opts :=
    <["attributes" := VArr columns]>
      (<["where" := conds]> (driver_options (built (this w)))) in
  opts !! "where" = Some conds
  ∧ opts !! "attributes" = Some (VArr columns)
  ∧ (get table columns conds w).1
    = match (findAll table opts (db w)).1 with
      | Returns (Fulfilled items) => Normal items
      | Throws e | Returns (Rejected e) =>
          Throw (new ReadError ("Fail fetching data: " +:+ message e))
      end.
Proof.
  intros Hown Hobject Hnull Hcolumns opts. subst opts.
  split; [by rewrite lookup_insert_ne, lookup_insert_eq|].
  split; [by rewrite lookup_insert_eq|].
  destruct conds; try discriminate; destruct columns as [|c columns];
    try done; unfold_methods; known_type; rewrite Hown; handed_options;
    by destruct (findAll _ _ _) as [[e|[items|e]] d].
Qed.

(** X22: conditions given to [exists], [update] or [delete] replace
    [where] in the built options for that call, even when the overlay
    defines [where]; [exists] and [delete] wrap a failure of the driver,
    [update] does not. The overlay has no [hasOwnProperty] of its
    own. *)
Theorem explicit_conditions_override (payload conds : Value) w :
  options (this w) !! "hasOwnProperty" = None →
  typeof conds = "object" → not_null conds = true →
  let opts := <["where" := conds]> (driver_options (built (this w))) in
  (exists_ table conds w).1
  = match (findOne table opts (db w)).1 with
    | Returns (Fulfilled item) => Normal (VBool (not_null item))
    | Throws e | Returns (Rejected e) =>
        Throw (new ReadError ("Error in exists method: " +:+ message e))
    end
  ∧ (delete_ table conds w).1
    = match (destroy table opts (db w)).1 with
      | Returns (Fulfilled result) => Normal result
      | Throws e | Returns (Rejected e) =>
          Throw (new DeleteError
            ("Error deleting from " +:+ name table +:+ ": " +:+ message e))
      end
  ∧ (update table payload conds w).1
    = match (table_update table payload opts (db w)).1 with
      | Returns (Fulfilled items) => Normal items
      | Returns (Rejected e) => Throw e
      | Throws e =>
          Throw (new TypeError
            "Class constructor UpdateError cannot be invoked without 'new'")
      end.
Proof.
  intros Hown Hobject Hnull opts. subst opts.
  destruct conds; try discriminate;
    repeat split; unfold_methods; known_type; rewrite ?Hown;
    handed_options; rewrite ?buildOptions_cases; simpl; rewrite ?Hown;
    handed_options.
  all: try by destruct (findOne _ _ _) as [[e|[item|e]] d].
  all: try by destruct (destroy _ _ _) as [[e|[item|e]] d].
  all: by destruct (table_update _ _ _ _) as [[e|[item|e]] d].
Qed.

(** X23: [getWhere] reads the conditions and the projection only: two
    builders that agree on these get the same answer and leave the same
    database, whatever their orders, limit, offset and overlay. *)
Theorem getWhere_reads_conditions_and_projection (conds : Value)
    (s1 s2 : Builder) (d : DB) :
  conditions s1 = conditions s2 → attributes s1 = attributes s2 →
  (getWhere table conds {| this := s1; db := d |}).1
  = (getWhere table conds {| this := s2; db := d |}).1
  ∧ db (getWhere table conds {| this := s1; db := d |}).2
    = db (getWhere table conds {| this := s2; db := d |}).2.
Proof.
  intros Hconditions Hattributes. unfold_methods.
  rewrite Hconditions, Hattributes.
  by destruct (findAll _ _ _) as [[e|[item|e]] d'].
Qed.

(** X24: [first] gives the driver the built options. When the driver
    finds no row and throwError is truthy it raises a NotFoundError
    that names the table, and the builder stays as built: conditions,
    options and throwError are not cleared. Otherwise it returns what
    the driver found and clears the builder. The overlay has no
    [hasOwnProperty] of its own. *)
Theorem first_outcome (item : Value) w (d : DB) :
  options (this w) !! "hasOwnProperty" = None →
  findOne table (driver_options (built (this w))) (db w)
  = (Returns (Fulfilled item), d) →
  first table w
  = if negb (truthy item) && truthy (throwError (this w))
    then (Throw (new NotFoundError (name table +:+ " not found")),
          {| this := built (this w); db := d |})
    else (Normal item, {| this := cleared (this w); db := d |}).
Proof.
  intros Hown Hone. unfold_methods; known_type. rewrite Hown. simpl.
  rewrite Hone. simpl.
  by destruct (negb (truthy item) && truthy (throwError (this w))).
Qed.

(** X25: [insert] of a value that is not an array goes the way of
    [create]: the same call to the driver, the same row returned, the
    same world left; a failure is a CreateError in both, under a
    different message. *)
Theorem insert_single_is_create (data : Value) w :
  isArray data = false →
  (insert_ table data w).2 = (create table data w).2
  ∧ match (create table data w).1, (insert_ table data w).1 with
    | Normal row, Normal row' => row = row'
    | Throw e, Throw e' => class e = class e'
    | _, _ => False
    end.
Proof.
  intros Harray. unfold_methods; known_type. rewrite Harray.
  destruct (bool_decide (typeof data = "object")); simpl; [|done].
  by destruct (table_create _ _ _) as [[e|[item|e]] d].
Qed.

(** X30: once the overlay has a property [hasOwnProperty] of its own
    that is no function, no options are built and the driver is not
    called: [update] and [delete] raise the TypeError of calling it,
    [get] and [exists] raise a ReadError around it, [first] raises the
    ReferenceError of its handler; the overlay stays as it is. *)
Theorem own_hasOwnProperty_stops_queries (own : OptionValue)
    (columns : list Value) (payload conds : Value) w :
  options (this w) !! "hasOwnProperty" = Some own →
  typeof (read (this w) own) ≠ "function" →
  typeof (default_to VNull conds) = "object" →
  let not_a_function := "this.options.hasOwnProperty is not a function" in
  update table payload conds w = (Throw (new TypeError not_a_function), w)
  ∧ delete_ table conds w = (Throw (new TypeError not_a_function), w)
  ∧ first table w = (Throw (new ReferenceError "id is not defined"), w)
  ∧ get table columns conds w
    = (Throw (new ReadError ("Fail fetching data: " +:+ not_a_function)),
       {| this := set_inspectValue (VArr columns) (this w); db := db w |})
  ∧ exists_ table conds w
    = (Throw (new ReadError ("Error in exists method: " +:+ not_a_function)),
       {| this := set_inspectValue (default_to VNull conds) (this w);
          db := db w |}).
Proof.
  intros Hown Hfunction Hconds not_a_function. subst not_a_function.
  destruct w as [s d]. simpl in *.
  repeat split; unfold_methods; known_type; rewrite ?Hown; simpl;
    rewrite ?(bool_decide_eq_true_2 _ Hconds); simpl;
    rewrite ?buildOptions_cases; simpl; rewrite ?Hown; simpl;
    unfold read in *; simpl;
    by rewrite (bool_decide_eq_false_2 _ Hfunction).
Qed.

End MoreTerminal.

Transparent buildOptions derived_options.

(** ** The further properties on concrete tables *)

Lemma limit_offset_need_number_witness :
  typeof (VStr "10") ≠ "number"
  ∧ limit (VStr "10") Users
    = (Throw (new TypeError "limit in limit method must be a number"),
       {| this := set_inspectValue (VStr "10") fresh; db := users |}).
Proof.
  split; [discriminate|].
  exact (proj1 (limit_offset_need_number (VStr "10") Users
                  ltac:(discriminate))).
Defined.

Lemma limit_offset_reach_driver_witness :
  typeof (VNum 2) = "number"
  ∧ options (this Users) !! "hasOwnProperty" = None
  ∧ options (this Users) !! "limit" = None
  ∧ options (this Users) !! "offset" = None
  ∧ ∃ opts,
      (limit (VNum 2) ;;; buildOptions ;;; gets driver_options) Users
      = (Normal opts,
         {| this :=
              built (set_limitValue (VNum 2)
                       (set_inspectValue (VNum 2) (this Users)));
            db := db Users |})
      ∧ opts !! "limit" = Some (VNum 2).
Proof.
  split; [reflexivity|]. split; [reflexivity|]. split; [reflexivity|].
  split; [reflexivity|].
  exact (proj1 (limit_offset_reach_driver (VNum 2) Users
                  eq_refl eq_refl eq_refl eq_refl)).
Defined.

Lemma option_reaches_driver_witness :
  options (this Users) !! "hasOwnProperty" = None
  ∧ "raw" ≠ "hasOwnProperty" ∧ "raw" ≠ "__proto__"
  ∧ ({["raw" := VBool true]} : gmap string Value) !! "hasOwnProperty" = None
  ∧ ({["raw" := VBool true]} : gmap string Value) !! "__proto__" = None
  ∧ ({["raw" := VBool true]} : gmap string Value) !! "raw"
    = Some (VBool true)
  ∧ ∃ opts,
      ((option_ (VStr "raw") (VBool true) ;;; buildOptions ;;;
        gets driver_options) Users).1
      = Normal opts
      ∧ opts !! "raw" = Some (VBool true).
Proof.
  split; [reflexivity|]. split; [discriminate|]. split; [discriminate|].
  split; [reflexivity|]. split; [reflexivity|]. split; [reflexivity|].
  exact (proj1 (option_reaches_driver {["raw" := VBool true]} "raw"
                  (VBool true) VUndefined Users eq_refl
                  ltac:(discriminate) ltac:(discriminate)
                  eq_refl eq_refl eq_refl)).
Defined.

Lemma where_then_lookup_witness :
  "name" ≠ "__proto__"
  ∧ ({["phone" := VStr "1234567890"]} : gmap string Value) !! "__proto__"
    = None
  ∧ conditions
      (this (where_ (VStr "name") (VStr "User 1") Users).2) !! "name"
    = Some (VStr "User 1")
  ∧ conditions
      (this (where_ (VObj {["phone" := VStr "1234567890"]}) VUndefined
               Users).2) !! "name"
    = None.
Proof.
  split; [discriminate|]. split; [reflexivity|].
  exact (where_then_lookup "name" (VStr "User 1") VUndefined
           {["phone" := VStr "1234567890"]} "name" Users
           ltac:(discriminate) eq_refl).
Defined.

Lemma where_nothing_to_assign_witness :
  typeof VNull = "object" ∧ own_properties VNull = ∅
  ∧ where_ VNull (VStr "User 1") Users = (Normal This, Users).
Proof.
  split; [reflexivity|]. split; [reflexivity|].
  exact (where_nothing_to_assign VNull (VStr "User 1") Users
           eq_refl eq_refl).
Defined.

Lemma orderBy_rejects_witness :
  to_upper "newest" ≠ "ASC" ∧ to_upper "newest" ≠ "DESC"
  ∧ orderBy to_upper (VStr "id") (Some "newest") Users
    = (Throw (new ModelError "Order available: ASC or DESC"), Users).
Proof.
  split; [discriminate|]. split; [discriminate|].
  exact (orderBy_rejects to_upper (VStr "id") "newest" Users
           ltac:(discriminate) ltac:(discriminate)).
Defined.

Lemma orderBy_composes_witness :
  to_upper "desc" ∈ ["ASC"; "DESC"] ∧ to_upper "Asc" ∈ ["ASC"; "DESC"]
  ∧ (orderBy to_upper (VStr "created_at") (Some "desc") ;;;
     orderBy to_upper (VStr "name") (Some "Asc")) Users
    = (Normal This,
       {| this :=
            put_orders
              [VArr [VStr "created_at"; VStr "DESC"];
               VArr [VStr "name"; VStr "ASC"]] fresh;
          db := users |}).
Proof.
  assert (to_upper "desc" ∈ ["ASC"; "DESC"]) as Hdesc
    by (apply elem_of_cons; right; apply elem_of_cons; by left).
  assert (to_upper "Asc" ∈ ["ASC"; "DESC"]) as Hasc
    by (apply elem_of_cons; by left).
  split; [exact Hdesc|]. split; [exact Hasc|].
  exact (orderBy_composes to_upper (VStr "created_at") (VStr "name")
           "desc" "Asc" Users Hdesc Hasc).
Defined.

Lemma needColumns_replaces_witness :
  options (this Users) !! "hasOwnProperty" = None
  ∧ options (this Users) !! "attributes" = None
  ∧ (needColumns [VStr "id"] ;;; needColumns [VStr "name"; VStr "phone"])
      Users
    = needColumns [VStr "name"; VStr "phone"] Users.
Proof.
  split; [reflexivity|]. split; [reflexivity|].
  exact (proj1 (needColumns_replaces [VStr "id"]
                  [VStr "name"; VStr "phone"] Users eq_refl eq_refl)).
Defined.

Lemma setOrders_then_orderBy_witness :
  to_upper "asc" ∈ ["ASC"; "DESC"]
  ∧ orders
      (this ((setOrders [VArr [VStr "id"; VStr "DESC"]] ;;;
              orderBy to_upper (VStr "name") (Some "asc")) Users).2)
    = [VArr [VStr "id"; VStr "DESC"]]
      ++ [VArr [VStr "name"; VStr (to_upper "asc")]].
Proof.
  assert (to_upper "asc" ∈ ["ASC"; "DESC"]) as Hasc
    by (apply elem_of_cons; by left).
  split; [exact Hasc|].
  exact (setOrders_then_orderBy to_upper [VArr [VStr "id"; VStr "DESC"]]
           (VStr "name") "asc" Users Hasc).
Defined.


Lemma verify_needs_boolean_witness :
  (ret (VNum 1) : M (list Value) Value) Users = (Normal (VNum 1), Users)
  ∧ typeof (VNum 1) ≠ "boolean"
  ∧ verify (ret (VNum 1)) Users
    = (Throw (new TypeError "verify callback must return boolean value"),
       {| this := set_inspectValue (VNum 1) fresh; db := users |}).
Proof.
  split; [reflexivity|]. split; [discriminate|].
  exact (proj1 (verify_needs_boolean (ret (VNum 1)) (VNum 1) Users Users
                  eq_refl ltac:(discriminate))).
Defined.

Lemma argument_must_be_object_witness :
  typeof (VStr "User 3") ≠ "object"
  ∧ create (memory_table "users") (VStr "User 3") Users
    = (Throw (new TypeError "Inserted data must have type of object"),
       {| this := set_inspectValue (VStr "User 3") fresh; db := users |}).
Proof.
  split; [discriminate|].
  exact (proj1 (argument_must_be_object (memory_table "users") show_keys
                  (VStr "User 3") Users ltac:(discriminate))).
Defined.

Lemma create_wraps_failure_witness :
  typeof (user 3 "User 3" "1234567892") = "object"
  ∧ table_create (failing_table "users" (rejecting refused))
      (user 3 "User 3" "1234567892") (db Offline)
    = (rejecting refused Value, tt)
  ∧ failure (rejecting refused Value) = Some refused
  ∧ create (failing_table "users" (rejecting refused))
      (user 3 "User 3" "1234567892") Offline
    = (Throw (new CreateError
         ("Error creating " +:+ "users" +:+ ": "
          +:+ "connect ECONNREFUSED")),
       {| this := set_inspectValue (user 3 "User 3" "1234567892") fresh;
          db := tt |}).
Proof.
  repeat (split; [reflexivity|]).
  exact (create_wraps_failure
           (failing_table "users" (rejecting refused))
           (user 3 "User 3" "1234567892") Offline
           (rejecting refused Value) refused tt
           eq_refl eq_refl eq_refl).
Defined.

Lemma insert_wraps_failure_witness :
  typeof (VArr [user 3 "User 3" "1234567892"]) = "object"
  ∧ insert_call (failing_table "users" (throwing refused))
      (VArr [user 3 "User 3" "1234567892"]) (db Offline)
    = (throwing refused Value, tt)
  ∧ failure (throwing refused Value) = Some refused
  ∧ insert_ (failing_table "users" (throwing refused))
      (VArr [user 3 "User 3" "1234567892"]) Offline
    = (Throw (new CreateError
         ("Error inserting into " +:+ "users" +:+ ": "
          +:+ "connect ECONNREFUSED")),
       {| this :=
            set_inspectValue (VArr [user 3 "User 3" "1234567892"]) fresh;
          db := tt |}).
Proof.
  repeat (split; [reflexivity|]).
  exact (insert_wraps_failure
           (failing_table "users" (throwing refused))
           (VArr [user 3 "User 3" "1234567892"]) Offline
           (throwing refused Value) refused tt
           eq_refl eq_refl eq_refl).
Defined.

Lemma get_wraps_failure_witness :
  options (this Offline) !! "hasOwnProperty" = None
  ∧ findAll (failing_table "users" (throwing refused))
      (get_options [VStr "name"] (VObj {["id" := VNum 1]}) (this Offline))
      (db Offline)
    = (throwing refused Value, tt)
  ∧ failure (throwing refused Value) = Some refused
  ∧ (get (failing_table "users" (throwing refused)) [VStr "name"]
       (VObj {["id" := VNum 1]}) Offline).1
    = Throw (new ReadError
        ("Fail fetching data: " +:+ "connect ECONNREFUSED")).
Proof.
  repeat (split; [reflexivity|]).
  exact (proj1 (get_wraps_failure
                  (failing_table "users" (throwing refused))
                  [VStr "name"] (VObj {["id" := VNum 1]}) Offline
                  (throwing refused Value) refused tt
                  eq_refl eq_refl eq_refl)).
Defined.

Lemma getWhere_wraps_failure_witness :
  findAll (failing_table "users" (rejecting refused))
    (getWhere_options VUndefined (this Offline)) (db Offline)
  = (rejecting refused Value, tt)
  ∧ failure (rejecting refused Value) = Some refused
  ∧ getWhere (failing_table "users" (rejecting refused)) VUndefined Offline
    = (Throw (new ReadError
         ("Fail fetching data: " +:+ "connect ECONNREFUSED")),
       Offline).
Proof.
  repeat (split; [reflexivity|]).
  exact (getWhere_wraps_failure
           (failing_table "users" (rejecting refused)) VUndefined Offline
           (rejecting refused Value) refused tt eq_refl eq_refl).
Defined.

Lemma exists_wraps_failure_witness :
  options (this Offline) !! "hasOwnProperty" = None
  ∧ typeof (default_to VNull (VObj {["phone" := VStr "1234567890"]}))
    = "object"
  ∧ findOne (failing_table "users" (rejecting refused))
      (conditioned_options (VObj {["phone" := VStr "1234567890"]})
         (this Offline))
      (db Offline)
    = (rejecting refused Value, tt)
  ∧ failure (rejecting refused Value) = Some refused
  ∧ (exists_ (failing_table "users" (rejecting refused))
       (VObj {["phone" := VStr "1234567890"]}) Offline).1
    = Throw (new ReadError
        ("Error in exists method: " +:+ "connect ECONNREFUSED")).
Proof.
  repeat (split; [reflexivity|]).
  exact (proj1 (exists_wraps_failure
                  (failing_table "users" (rejecting refused))
                  (VObj {["phone" := VStr "1234567890"]}) Offline
                  (rejecting refused Value) refused tt
                  eq_refl eq_refl eq_refl eq_refl)).
Defined.

Lemma delete_wraps_failure_witness :
  options (this Offline) !! "hasOwnProperty" = None
  ∧ destroy (failing_table "users" (rejecting refused))
      (conditioned_options (VObj {["id" := VNum 1]}) (this Offline))
      (db Offline)
    = (rejecting refused Value, tt)
  ∧ failure (rejecting refused Value) = Some refused
  ∧ (delete_ (failing_table "users" (rejecting refused))
       (VObj {["id" := VNum 1]}) Offline).1
    = Throw (new DeleteError
        ("Error deleting from " +:+ "users" +:+ ": "
         +:+ "connect ECONNREFUSED")).
Proof.
  repeat (split; [reflexivity|]).
  exact (proj1 (delete_wraps_failure
                  (failing_table "users" (rejecting refused))
                  (VObj {["id" := VNum 1]}) Offline
                  (rejecting refused Value) refused tt
                  eq_refl eq_refl eq_refl)).
Defined.

Lemma truncate_wraps_failure_witness :
  destroy (failing_table "users" (throwing refused)) truncate_options
    (db Offline)
  = (throwing refused Value, tt)
  ∧ failure (throwing refused Value) = Some refused
  ∧ truncate (failing_table "users" (throwing refused)) Offline
    = (Throw (new DeleteError
         ("Error truncating " +:+ "users" +:+ ": "
          +:+ "connect ECONNREFUSED")),
       Offline).
Proof.
  repeat (split; [reflexivity|]).
  exact (truncate_wraps_failure
           (failing_table "users" (throwing refused)) Offline
           (throwing refused Value) refused tt eq_refl eq_refl).
Defined.


Lemma getOrCreate_found_witness :
  typeof (VObj {["name" := VStr "User 1"]}) = "object"
  ∧ findOrCreate (memory_table "users")
      {["where" := VObj {["name" := VStr "User 1"]}]} users
    = (Returns (Fulfilled (user 1 "User 1" "1234567890", VBool false)),
       users)
  ∧ getOrCreate (memory_table "users") show_keys
      (VObj {["name" := VStr "User 1"]})
      {| this := set_throwError (VBool true) fresh; db := users |}
    = (Throw (new CreateError "users already exists with data {name}"),
       {| this :=
            set_inspectValue (VObj {["name" := VStr "User 1"]})
              (set_throwError (VBool true) fresh);
          db := users |}).
Proof.
  split; [reflexivity|].
  assert (findOrCreate (memory_table "users")
            {["where" := VObj {["name" := VStr "User 1"]}]} users
          = (Returns (Fulfilled (user 1 "User 1" "1234567890", VBool false)),
             users)) as Hfound by (vm_compute; reflexivity).
  split; [exact Hfound|].
  exact (getOrCreate_found (memory_table "users") show_keys
           (VObj {["name" := VStr "User 1"]})
           (user 1 "User 1" "1234567890") (VBool false)
           {| this := set_throwError (VBool true) fresh; db := users |}
           users eq_refl Hfound).
Defined.

Lemma getOrCreate_wraps_failure_witness :
  typeof (VObj {["name" := VStr "User 1"]}) = "object"
  ∧ failure (rejecting refused (Value * Value)) = Some refused
  ∧ findOrCreate (failing_table "users" (rejecting refused))
      {["where" := VObj {["name" := VStr "User 1"]}]} (db Offline)
    = (rejecting refused (Value * Value), tt)
  ∧ (getOrCreate (failing_table "users" (rejecting refused)) show_keys
       (VObj {["name" := VStr "User 1"]}) Offline).1
    = Throw (new ModelError
        "Error creating or finding users: connect ECONNREFUSED").
Proof.
  repeat (split; [reflexivity|]).
  exact (f_equal fst
           (getOrCreate_wraps_failure
              (failing_table "users" (rejecting refused)) show_keys
              (VObj {["name" := VStr "User 1"]}) Offline
              (rejecting refused (Value * Value)) refused tt
              eq_refl eq_refl eq_refl)).
Defined.

Lemma exists_result_witness :
  options (this Users) !! "hasOwnProperty" = None
  ∧ typeof (default_to VNull (VObj {["phone" := VStr "1234567890"]}))
    = "object"
  ∧ findOne (memory_table "users")
      (conditioned_options (VObj {["phone" := VStr "1234567890"]})
         (this Users))
      (db Users)
    = (Returns (Fulfilled (user 1 "User 1" "1234567890")), users)
  ∧ exists_ (memory_table "users") (VObj {["phone" := VStr "1234567890"]})
      Users
    = (Normal (VBool true),
       {| this :=
            cleared (set_inspectValue
                       (VObj {["phone" := VStr "1234567890"]}) fresh);
          db := users |}).
Proof.
  assert (findOne (memory_table "users")
            (conditioned_options (VObj {["phone" := VStr "1234567890"]})
               (this Users))
            (db Users)
          = (Returns (Fulfilled (user 1 "User 1" "1234567890")), users))
    as Hfound by (vm_compute; reflexivity).
  split; [reflexivity|]. split; [reflexivity|]. split; [exact Hfound|].
  exact (exists_result (memory_table "users")
           (VObj {["phone" := VStr "1234567890"]})
           (user 1 "User 1" "1234567890") Users users
           eq_refl eq_refl Hfound).
Defined.

Lemma non_object_conditions_ignored_witness :
  typeof (VStr "id = 1") ≠ "object"
  ∧ options (this Users) !! "hasOwnProperty" = None
  ∧ (delete_ (memory_table "users") (VStr "id = 1") Users).1
    = match (destroy (memory_table "users")
               (driver_options (built (this Users))) (db Users)).1 with
      | Returns (Fulfilled result) => Normal result
      | Throws e | Returns (Rejected e) =>
          Throw (new DeleteError
            ("Error deleting from " +:+ "users" +:+ ": " +:+ message e))
      end.
Proof.
  split; [discriminate|]. split; [reflexivity|].
  exact (proj2 (proj2 (proj2 (non_object_conditions_ignored
                                (memory_table "users") VNull
                                (VStr "id = 1") Users
                                ltac:(discriminate) eq_refl)))).
Defined.

Lemma get_explicit_override_witness :
  options (this Users) !! "hasOwnProperty" = None
  ∧ typeof (VObj {["name" := VStr "User 2"]}) = "object"
  ∧ not_null (VObj {["name" := VStr "User 2"]}) = true
  ∧ [VStr "phone"] ≠ []
  ∧ (<["attributes" := VArr [VStr "phone"]]>
       (<["where" := VObj {["name" := VStr "User 2"]}]>
          (driver_options (built (this Users))))) !! "where"
    = Some (VObj {["name" := VStr "User 2"]}).
Proof.
  split; [reflexivity|].
  split; [reflexivity|]. split; [reflexivity|]. split; [discriminate|].
  exact (proj1 (get_explicit_override (memory_table "users")
                  [VStr "phone"] (VObj {["name" := VStr "User 2"]}) Users
                  eq_refl eq_refl eq_refl ltac:(discriminate))).
Defined.

Lemma explicit_conditions_override_witness :
  options (this Users) !! "hasOwnProperty" = None
  ∧ typeof (VObj {["phone" := VStr "1234567890"]}) = "object"
  ∧ not_null (VObj {["phone" := VStr "1234567890"]}) = true
  ∧ (exists_ (memory_table "users")
       (VObj {["phone" := VStr "1234567890"]}) Users).1
    = match (findOne (memory_table "users")
               (<["where" := VObj {["phone" := VStr "1234567890"]}]>
                  (driver_options (built (this Users))))
               (db Users)).1 with
      | Returns (Fulfilled item) => Normal (VBool (not_null item))
      | Throws e | Returns (Rejected e) =>
          Throw (new ReadError ("Error in exists method: " +:+ message e))
      end.
Proof.
  split; [reflexivity|]. split; [reflexivity|]. split; [reflexivity|].
  exact (proj1 (explicit_conditions_override (memory_table "users")
                  VNull (VObj {["phone" := VStr "1234567890"]}) Users
                  eq_refl eq_refl eq_refl)).
Defined.

Lemma getWhere_reads_conditions_and_projection_witness :
  conditions fresh = conditions (set_limitValue (VNum 1) fresh)
  ∧ attributes fresh = attributes (set_limitValue (VNum 1) fresh)
  ∧ (getWhere (memory_table "users") VUndefined
       {| this := fresh; db := users |}).1
    = (getWhere (memory_table "users") VUndefined
         {| this := set_limitValue (VNum 1) fresh; db := users |}).1.
Proof.
  split; [reflexivity|]. split; [reflexivity|].
  exact (proj1 (getWhere_reads_conditions_and_projection
                  (memory_table "users") VUndefined fresh
                  (set_limitValue (VNum 1) fresh) users eq_refl eq_refl)).
Defined.

Lemma first_outcome_witness :
  options (set_throwError (VBool true) fresh) !! "hasOwnProperty" = None
  ∧ findOne (memory_table "users")
      (driver_options (built (set_throwError (VBool true) fresh))) []
    = (Returns (Fulfilled VNull), [])
  ∧ first (memory_table "users")
      {| this := set_throwError (VBool true) fresh; db := [] |}
    = (Throw (new NotFoundError "users not found"),
       {| this := built (set_throwError (VBool true) fresh); db := [] |}).
Proof.
  assert (findOne (memory_table "users")
            (driver_options (built (set_throwError (VBool true) fresh))) []
          = (Returns (Fulfilled VNull), [])) as Hnone
    by (vm_compute; reflexivity).
  split; [reflexivity|]. split; [exact Hnone|].
  exact (first_outcome (memory_table "users") VNull
           {| this := set_throwError (VBool true) fresh; db := [] |} []
           eq_refl Hnone).
Defined.

Lemma insert_single_is_create_witness :
  isArray (user 3 "User 3" "1234567892") = false
  ∧ (insert_ (memory_table "users") (user 3 "User 3" "1234567892")
       Users).2
    = (create (memory_table "users") (user 3 "User 3" "1234567892")
         Users).2.
Proof.
  split; [reflexivity|].
  exact (proj1 (insert_single_is_create (memory_table "users")
                  (user 3 "User 3" "1234567892") Users eq_refl)).
Defined.

Lemma own_hasOwnProperty_stops_queries_witness :
  options (this Shadowed) !! "hasOwnProperty" = Some (value (VBool true))
  ∧ typeof (read (this Shadowed) (value (VBool true))) ≠ "function"
  ∧ typeof (default_to VNull VUndefined) = "object"
  ∧ delete_ (memory_table "users") VUndefined Shadowed
    = (Throw (new TypeError
         "this.options.hasOwnProperty is not a function"),
       Shadowed).
Proof.
  split; [reflexivity|]. split; [discriminate|]. split; [reflexivity|].
  exact (proj1 (proj2 (own_hasOwnProperty_stops_queries
                         (memory_table "users") (value (VBool true)) []
                         VNull VUndefined Shadowed
                         eq_refl ltac:(discriminate) eq_refl))).
Defined.

(** [delete] with conditions that are not an object and nothing
    accumulated removes every row. *)
Example delete_with_a_string_removes_all :
  delete_ (memory_table "users") (VStr "id = 1") Users
  = (Normal (VNum 2), {| this := fresh; db := [] |}).
Proof. vm_compute. reflexivity. Qed.

(** An overlay that has taken a [hasOwnProperty] of its own through
    [option] stops the next query. *)
Example option_hasOwnProperty_stops_get :
  ((option_ (VStr "hasOwnProperty") (VBool true) ;;;
    get (memory_table "users") [] VUndefined) Users).1
  = Throw (new ReadError
      "Fail fetching data: this.options.hasOwnProperty is not a function").
Proof. vm_compute. reflexivity. Qed.
